(** * SettingsPage: the settings panel of multi-model-chat

    A shallow embedding of the logic of [src/components/SettingsPage.tsx]:
    the comma-separated model-name parser, the save / confirm / cancel
    handlers of the local-model form, the timeout field binder and the
    settings import callback, together with the properties proved about
    them.

    The component is a React function component.  Its [useState] cells
    are the fields of [PageState]; the settings service it calls, the
    random number generator behind [Math.random] and the timers set by
    [setTimeout] are the remaining parts of [World].  A handler is a
    computation in the state monad [M] over [World]. *)

From Stdlib Require Import Strings.String Strings.Ascii.
From Stdlib Require Import Numbers.DecimalString.
From Stdlib Require Numbers.DecimalNat.
From Stdlib Require Import Floats.SpecFloat.
From Stdlib Require Import NArith ZArith Bool Arith Lia List.
Import ListNotations.

Open Scope nat_scope.

Set Implicit Arguments.

(* ===================================================================== *)
(** ** JavaScript strings *)
(* ===================================================================== *)

(** A JavaScript string is a finite sequence of UTF-16 code units. *)
Definition jsstring : Type := list N.

(** A string literal of the source, one code unit per character. *)
Definition js (s : string) : jsstring :=
  map N_of_ascii (list_ascii_of_string s).

(** The code unit of [','], the separator handed to [split]. *)
Definition comma : N := 44%N.

(** The code units [String.prototype.trim] removes: ECMAScript's
    WhiteSpace (TAB, VT, FF, SP, NBSP, ZWNBSP and the Unicode space
    separators) and LineTerminator (LF, CR, LS, PS). *)
Definition whiteSpaceUnits : list N :=
  [ 9; 10; 11; 12; 13; 32; 160; 5760;
    8192; 8193; 8194; 8195; 8196; 8197; 8198; 8199; 8200; 8201; 8202;
    8232; 8233; 8239; 8287; 12288; 65279 ]%N.

Definition isWhiteSpace (c : N) : bool := existsb (N.eqb c) whiteSpaceUnits.

(** [s.split(',')] for a separator of one code unit: the pieces between
    the separators, in order; a string without separator is its own only
    piece, and the empty string splits into one empty piece. *)
Fixpoint split (sep : N) (s : jsstring) : list jsstring :=
  match s with
  | [] => [[]]
  | c :: rest =>
      if N.eqb c sep then [] :: split sep rest
      else match split sep rest with
           | [] => [[c]]
           | piece :: pieces => (c :: piece) :: pieces
           end
  end.

Fixpoint trimStart (s : jsstring) : jsstring :=
  match s with
  | [] => []
  | c :: rest => if isWhiteSpace c then trimStart rest else s
  end.

Definition trimEnd (s : jsstring) : jsstring := rev (trimStart (rev s)).

(** [s.trim()]: leading and trailing white space removed. *)
Definition trim (s : jsstring) : jsstring := trimEnd (trimStart s).

(** [s.substring(a, b)]: both indices are clamped to the length and
    swapped when out of order. *)
Definition substring (a b : nat) (s : jsstring) : jsstring :=
  let a' := Nat.min a (length s) in
  let b' := Nat.min b (length s) in
  let lo := Nat.min a' b' in
  let hi := Nat.max a' b' in
  firstn (hi - lo) (skipn lo s).

(** [parts.join(sep)]. *)
Fixpoint join (sep : jsstring) (parts : list jsstring) : jsstring :=
  match parts with
  | [] => []
  | [p] => p
  | p :: rest => p ++ sep ++ join sep rest
  end.

(** The decimal rendering of an array length inside a template literal. *)
Definition lengthToString (n : nat) : jsstring :=
  js (NilEmpty.string_of_uint (Nat.to_uint n)).

(** The [names] constant of [parseCommaSeparatedModelNames]:
    [model.name.split(',').map(name => name.trim()).filter(name => name.length > 0)]. *)
Definition parseNames (s : jsstring) : list jsstring :=
  filter (fun name => 0 <? length name) (map trim (split comma s)).

(* ===================================================================== *)
(** ** JavaScript numbers *)
(* ===================================================================== *)

(** A JavaScript number is an IEEE 754 binary64 value: a signed zero, a
    signed infinity, [NaN], or a finite value given by sign, integer
    significand and binary exponent.  [*] and [/] round to the nearest
    value, ties to even; they are the multiplication and division of
    the Standard Library's specification of binary floating point, at
    precision 53 and exponent bound 1024. *)
Definition number : Type := spec_float.

Definition NaN : number := S754_nan.

(** The number nearest to an integer, ties to even: the value of an
    integer literal of the source, and of the digits [parseInt] read. *)
Definition num_of_Z (z : Z) : number := binary_normalize 53 1024 z 0 false.

Definition num_mul (x y : number) : number := SFmul 53 1024 x y.

Definition num_div (x y : number) : number := SFdiv 53 1024 x y.

(** The value of a code unit read as a digit in a radix up to 36. *)
Definition digitValue (c : N) : option N :=
  if ((48 <=? c) && (c <=? 57))%N then Some (c - 48)%N
  else if ((97 <=? c) && (c <=? 122))%N then Some (c - 87)%N
  else if ((65 <=? c) && (c <=? 90))%N then Some (c - 55)%N
  else None.

(** The integer written by the longest prefix of [s] made of digits of
    [radix], as a mathematical integer ([parseInt] rounds it to a
    number afterwards); [acc] is the value read so far, [None] while no
    digit was read. *)
Fixpoint digitsPrefix (radix : N) (s : jsstring) (acc : option N) : option N :=
  match s with
  | [] => acc
  | c :: rest =>
      match digitValue c with
      | Some d =>
          if (d <? radix)%N
          then digitsPrefix radix rest
                 (Some (match acc with Some a => a * radix + d | None => d end)%N)
          else acc
      | None => acc
      end
  end.

(** [parseInt(s)] without a radix argument: leading white space is
    skipped, then an optional sign, then a [0x] or [0X] prefix selects
    radix 16, then the longest run of digits is read; no digit at all
    gives [NaN].  The integer read is rounded to the nearest number; a
    negative sign before zero gives the negative zero.  (Past twenty
    significant decimal digits an engine may read the further digits as
    zeros; here every digit counts.) *)
Definition parseInt (s : jsstring) : number :=
  let s1 := trimStart s in
  let signed :=
    match s1 with
    | 45%N :: rest => (true, rest)
    | 43%N :: rest => (false, rest)
    | _ => (false, s1)
    end in
  let prefixed :=
    match snd signed with
    | 48%N :: 120%N :: rest => (16%N, rest)
    | 48%N :: 88%N :: rest => (16%N, rest)
    | _ => (10%N, snd signed)
    end in
  match digitsPrefix (fst prefixed) (snd prefixed) None with
  | None => NaN
  | Some n =>
      if fst signed
      then (if N.eqb n 0 then S754_zero true else num_of_Z (- Z.of_N n))
      else num_of_Z (Z.of_N n)
  end.

(* ===================================================================== *)
(** ** Data model *)
(* ===================================================================== *)

(** Modelled from the spec: the declaration of [LocalModelConfig] is in
    [../types], which is not part of the source.  The fields are those
    the component reads ([id], [name], [modelType], [endpoint],
    [description], [isEnabled]); [extra] stands for the "fields owned by
    the external form/service not otherwise interpreted here", which the
    object spread [...model] copies along. *)
Record LocalModelConfig : Type := {
  id : jsstring;
  name : jsstring;
  modelType : jsstring;
  endpoint : jsstring;
  description : jsstring;
  isEnabled : bool;
  extra : list (jsstring * jsstring)
}.

Inductive Theme : Type := Light | Dark | Auto.

(** Modelled from the spec: the declaration of [AppSettings] is in
    [../types], which is not part of the source.  The fields are those
    the component binds to inputs, and the ordered collection of local
    models. *)
Record AppSettings : Type := {
  maxTokens : number;
  temperature : number;
  localModelTimeout : number;
  autoSave : bool;
  theme : Theme;
  openRouterApiKey : jsstring;
  localModels : list LocalModelConfig
}.

(** [Partial<AppSettings>]: each field present or absent. *)
Record SettingsPatch : Type := {
  patch_maxTokens : option number;
  patch_temperature : option number;
  patch_localModelTimeout : option number;
  patch_autoSave : option bool;
  patch_theme : option Theme;
  patch_openRouterApiKey : option jsstring
}.

Definition emptyPatch : SettingsPatch :=
  {| patch_maxTokens := None; patch_temperature := None;
     patch_localModelTimeout := None; patch_autoSave := None;
     patch_theme := None; patch_openRouterApiKey := None |}.

(** The object literal [{ localModelTimeout: v }]. *)
Definition timeoutPatch (v : number) : SettingsPatch :=
  {| patch_maxTokens := None; patch_temperature := None;
     patch_localModelTimeout := Some v; patch_autoSave := None;
     patch_theme := None; patch_openRouterApiKey := None |}.

(** The object literal [{ ...model, id: newId, name: newName }]. *)
Definition spreadWith (model : LocalModelConfig) (newId newName : jsstring)
  : LocalModelConfig :=
  {| id := newId; name := newName;
     modelType := modelType model; endpoint := endpoint model;
     description := description model; isEnabled := isEnabled model;
     extra := extra model |}.

(* ===================================================================== *)
(** ** The settings service *)
(* ===================================================================== *)

Inductive Outcome : Type := Returned | Threw.

(** The interface of [SettingsService] ([../services/settings], not part
    of the source), over the service's own state [Store]: the operations
    the handlers below call.  A call reads and replaces that state.  The argument of [addLocalModel] is a
    JavaScript value that may be [undefined] ([None]): the component
    passes an array element it did not check.  [importSettings] may
    throw, and may have touched the state before it does; the other
    operations return, and [getSettings] only reads. *)
Record SettingsService (Store : Type) : Type := {
  getSettings : Store -> AppSettings;
  updateSettings : SettingsPatch -> Store -> AppSettings * Store;
  addLocalModel : option LocalModelConfig -> Store -> Store;
  addLocalModels : list LocalModelConfig -> Store -> Store;
  updateLocalModel : jsstring -> LocalModelConfig -> Store -> Store;
  removeLocalModel : jsstring -> Store -> Store;
  importSettings : jsstring -> Store -> Outcome * Store;
  resetSettings : Store -> Store
}.

(** What the component called, in order: the calls of the service, and
    the entries into [parseCommaSeparatedModelNames]. *)
Inductive Call : Type :=
| GetSettings
| UpdateSettings (updates : SettingsPatch)
| AddLocalModel (model : option LocalModelConfig)
| AddLocalModels (models : list LocalModelConfig)
| UpdateLocalModel (modelId : jsstring) (model : LocalModelConfig)
| RemoveLocalModel (modelId : jsstring)
| ImportSettings (content : jsstring)
| ResetSettings
| ParseCommaSeparatedModelNames (model : LocalModelConfig).

(* ===================================================================== *)
(** ** Component state *)
(* ===================================================================== *)

Inductive SettingsTab : Type := General | Api | LocalModels | Appearance.

(** The [useState] cells of [SettingsPage]. *)
Record PageState : Type := {
  settings : AppSettings;
  activeTab : SettingsTab;
  showLocalModelForm : bool;
  editingModel : option LocalModelConfig;
  importError : jsstring;
  showBulkConfirm : bool;
  modelsToCreate : list LocalModelConfig;
  successMessage : jsstring
}.

(** Work the component has started and that completes later: the
    [setTimeout] that clears the success message, and a [FileReader]
    reading the text of an uploaded file. *)
Inductive Pending : Type :=
| ClearSuccessAfter (ms : N)
| ReadingFile (content : jsstring).

Record World (Store : Type) : Type := {
  page : PageState;
  store : Store;
  calls : list Call;
  draws : nat;
  pending : list Pending
}.

(** Handlers are computations over the world. *)
Definition M (Store A : Type) : Type := World Store -> A * World Store.

Definition ret {Store A : Type} (a : A) : M Store A := fun w => (a, w).

Definition bind {Store A B : Type} (m : M Store A) (k : A -> M Store B)
  : M Store B :=
  fun w => k (fst (m w)) (snd (m w)).

Declare Scope handler_scope.
Delimit Scope handler_scope with handler.
Notation "x <- m ;; k" := (bind m (fun x => k))
  (at level 61, m at next level, right associativity) : handler_scope.
Notation "m ;; k" := (bind m (fun _ => k))
  (at level 61, right associativity) : handler_scope.
Open Scope handler_scope.

Fixpoint mapM {Store A B : Type} (f : A -> M Store B) (l : list A)
  : M Store (list B) :=
  match l with
  | [] => ret []
  | x :: rest => y <- f x ;; ys <- mapM f rest ;; ret (y :: ys)
  end.

Definition run {Store A : Type} (m : M Store A) (w : World Store) : World Store :=
  snd (m w).

Definition result {Store A : Type} (m : M Store A) (w : World Store) : A :=
  fst (m w).

(** The values of the state cells as the handler's closure sees them. *)
Definition render {Store : Type} : M Store PageState := fun w => (page w, w).

Definition updatePage {Store : Type} (f : PageState -> PageState) : M Store unit :=
  fun w => (tt, {| page := f (page w); store := store w; calls := calls w;
                   draws := draws w; pending := pending w |}).

Definition setSettings {Store : Type} (v : AppSettings) : M Store unit :=
  updatePage (fun p =>
    {| settings := v; activeTab := activeTab p;
       showLocalModelForm := showLocalModelForm p;
       editingModel := editingModel p; importError := importError p;
       showBulkConfirm := showBulkConfirm p;
       modelsToCreate := modelsToCreate p;
       successMessage := successMessage p |}).

Definition setActiveTab {Store : Type} (v : SettingsTab) : M Store unit :=
  updatePage (fun p =>
    {| settings := settings p; activeTab := v;
       showLocalModelForm := showLocalModelForm p;
       editingModel := editingModel p; importError := importError p;
       showBulkConfirm := showBulkConfirm p;
       modelsToCreate := modelsToCreate p;
       successMessage := successMessage p |}).

Definition setShowLocalModelForm {Store : Type} (v : bool) : M Store unit :=
  updatePage (fun p =>
    {| settings := settings p; activeTab := activeTab p;
       showLocalModelForm := v;
       editingModel := editingModel p; importError := importError p;
       showBulkConfirm := showBulkConfirm p;
       modelsToCreate := modelsToCreate p;
       successMessage := successMessage p |}).

Definition setEditingModel {Store : Type} (v : option LocalModelConfig)
  : M Store unit :=
  updatePage (fun p =>
    {| settings := settings p; activeTab := activeTab p;
       showLocalModelForm := showLocalModelForm p;
       editingModel := v; importError := importError p;
       showBulkConfirm := showBulkConfirm p;
       modelsToCreate := modelsToCreate p;
       successMessage := successMessage p |}).

Definition setImportError {Store : Type} (v : jsstring) : M Store unit :=
  updatePage (fun p =>
    {| settings := settings p; activeTab := activeTab p;
       showLocalModelForm := showLocalModelForm p;
       editingModel := editingModel p; importError := v;
       showBulkConfirm := showBulkConfirm p;
       modelsToCreate := modelsToCreate p;
       successMessage := successMessage p |}).

Definition setShowBulkConfirm {Store : Type} (v : bool) : M Store unit :=
  updatePage (fun p =>
    {| settings := settings p; activeTab := activeTab p;
       showLocalModelForm := showLocalModelForm p;
       editingModel := editingModel p; importError := importError p;
       showBulkConfirm := v;
       modelsToCreate := modelsToCreate p;
       successMessage := successMessage p |}).

Definition setModelsToCreate {Store : Type} (v : list LocalModelConfig)
  : M Store unit :=
  updatePage (fun p =>
    {| settings := settings p; activeTab := activeTab p;
       showLocalModelForm := showLocalModelForm p;
       editingModel := editingModel p; importError := importError p;
       showBulkConfirm := showBulkConfirm p;
       modelsToCreate := v;
       successMessage := successMessage p |}).

Definition setSuccessMessage {Store : Type} (v : jsstring) : M Store unit :=
  updatePage (fun p =>
    {| settings := settings p; activeTab := activeTab p;
       showLocalModelForm := showLocalModelForm p;
       editingModel := editingModel p; importError := importError p;
       showBulkConfirm := showBulkConfirm p;
       modelsToCreate := modelsToCreate p;
       successMessage := v |}).

(** Record a call and let the service act on its state. *)
Definition serviceCall {Store : Type} (c : Call) (f : Store -> Store)
  : M Store unit :=
  fun w => (tt, {| page := page w; store := f (store w);
                   calls := calls w ++ [c];
                   draws := draws w; pending := pending w |}).

(** Record the entry into a function of the component. *)
Definition enter {Store : Type} (c : Call) : M Store unit :=
  serviceCall c (fun s => s).

Definition schedule {Store : Type} (p : Pending) : M Store unit :=
  fun w => (tt, {| page := page w; store := store w; calls := calls w;
                   draws := draws w; pending := pending w ++ [p] |}).

(* ===================================================================== *)
(** ** The component's functions *)
(* ===================================================================== *)

Section Component.

Context {Store : Type}.

(** The settings service the component is linked against. *)
Variable service : SettingsService Store.

(** [random36 k] is the text [Math.random().toString(36)] evaluates to
    at the [k]-th draw since the page was loaded: ["0"] for a draw of
    zero, otherwise ["0."] followed by base-36 digits.  The generator is
    not part of the source, so its outputs are taken as given. *)
Variable random36 : nat -> jsstring.

Definition SettingsService_getSettings : M Store AppSettings :=
  fun w => (getSettings service (store w),
            {| page := page w; store := store w;
               calls := calls w ++ [GetSettings];
               draws := draws w; pending := pending w |}).

Definition SettingsService_updateSettings (updates : SettingsPatch)
  : M Store AppSettings :=
  fun w => (fst (updateSettings service updates (store w)),
            {| page := page w;
               store := snd (updateSettings service updates (store w));
               calls := calls w ++ [UpdateSettings updates];
               draws := draws w; pending := pending w |}).

Definition SettingsService_addLocalModel (model : option LocalModelConfig)
  : M Store unit :=
  serviceCall (AddLocalModel model) (addLocalModel service model).

Definition SettingsService_addLocalModels (models : list LocalModelConfig)
  : M Store unit :=
  serviceCall (AddLocalModels models) (addLocalModels service models).

Definition SettingsService_updateLocalModel (modelId : jsstring)
  (model : LocalModelConfig) : M Store unit :=
  serviceCall (UpdateLocalModel modelId model)
              (updateLocalModel service modelId model).

Definition SettingsService_removeLocalModel (modelId : jsstring) : M Store unit :=
  serviceCall (RemoveLocalModel modelId) (removeLocalModel service modelId).

Definition SettingsService_resetSettings : M Store unit :=
  serviceCall ResetSettings (resetSettings service).

Definition SettingsService_importSettings (content : jsstring)
  : M Store Outcome :=
  fun w => (fst (importSettings service content (store w)),
            {| page := page w;
               store := snd (importSettings service content (store w));
               calls := calls w ++ [ImportSettings content];
               draws := draws w; pending := pending w |}).

(** [Math.random().toString(36).substring(2, 15)]: one draw. *)
Definition newRandomId : M Store jsstring :=
  fun w => (substring 2 15 (random36 (draws w)),
            {| page := page w; store := store w; calls := calls w;
               draws := S (draws w); pending := pending w |}).

(** The first render: every cell at its initial value, the snapshot
    read from the service.  Later renders evaluate the argument of
    [useState] again and drop it; those reads happen between handlers
    and are not recorded. *)
Definition mount (s : Store) : World Store :=
  {| page := {| settings := getSettings service s;
                activeTab := General;
                showLocalModelForm := false;
                editingModel := None;
                importError := [];
                showBulkConfirm := false;
                modelsToCreate := [];
                successMessage := [] |};
     store := s;
     calls := [GetSettings];
     draws := 0;
     pending := [] |}.

Definition handleSaveSettings (updates : SettingsPatch) : M Store unit :=
  updated <- SettingsService_updateSettings updates ;;
  setSettings updated.

Definition parseCommaSeparatedModelNames (model : LocalModelConfig)
  : M Store (list LocalModelConfig) :=
  enter (ParseCommaSeparatedModelNames model) ;;
  (* Split by comma, trim whitespace, and filter out empty entries *)
  let names := parseNames (name model) in
  if length names =? 1 then
    (* Single model, return as-is *)
    ret [model]
  else
    (* Multiple models, create array with same config but different names *)
    mapM (fun name =>
            newId <- newRandomId ;;
            ret (spreadWith model newId name))
         names.

Definition handleSaveLocalModel (model : LocalModelConfig) : M Store unit :=
  cells <- render ;;
  match editingModel cells with
  | Some _ =>
      SettingsService_updateLocalModel (id model) model ;;
      s <- SettingsService_getSettings ;;
      setSettings s ;;
      setShowLocalModelForm false ;;
      setEditingModel None
  | None =>
      (* Check if model name contains commas for bulk creation *)
      modelsToSave <- parseCommaSeparatedModelNames model ;;
      if 1 <? length modelsToSave then
        (* Show confirmation dialog for bulk creation *)
        setModelsToCreate modelsToSave ;;
        setShowBulkConfirm true
      else
        (* Single model creation *)
        SettingsService_addLocalModel (nth_error modelsToSave 0) ;;
        s <- SettingsService_getSettings ;;
        setSettings s ;;
        setShowLocalModelForm false ;;
        setEditingModel None
  end.

(** The text of the success notice. *)
Definition successText (models : list LocalModelConfig) : jsstring :=
  js "Successfully created " ++ lengthToString (length models)
  ++ js " models: " ++ join (js ", ") (map name models).

Definition handleConfirmBulkCreation : M Store unit :=
  cells <- render ;;
  SettingsService_addLocalModels (modelsToCreate cells) ;;
  s <- SettingsService_getSettings ;;
  setSettings s ;;
  setShowLocalModelForm false ;;
  setEditingModel None ;;
  setShowBulkConfirm false ;;
  setSuccessMessage (successText (modelsToCreate cells)) ;;
  (* Clear the success message after 5 seconds *)
  schedule (ClearSuccessAfter 5000).

Definition handleCancelBulkCreation : M Store unit :=
  setShowBulkConfirm false ;;
  setModelsToCreate [].

(** [confirmed] is the user's answer to the [confirm] prompt. *)
Definition handleDeleteLocalModel (modelId : jsstring) (confirmed : bool)
  : M Store unit :=
  if confirmed then
    SettingsService_removeLocalModel modelId ;;
    s <- SettingsService_getSettings ;;
    setSettings s
  else ret tt.

Definition handleEditLocalModel (model : LocalModelConfig) : M Store unit :=
  setEditingModel (Some model) ;;
  setShowLocalModelForm true.

(** The [onClick] of the "Add Model" button. *)
Definition addModelOnClick : M Store unit := setShowLocalModelForm true.

(** The [onCancel] of the model form. *)
Definition localModelFormOnCancel : M Store unit :=
  setShowLocalModelForm false ;;
  setEditingModel None.

(** [reader.onload]: the callback of the file reader, run with the text
    of the file once it was read. *)
Definition readerOnLoad (content : jsstring) : M Store unit :=
  outcome <- SettingsService_importSettings content ;;
  match outcome with
  | Returned =>
      s <- SettingsService_getSettings ;;
      setSettings s ;;
      setImportError []
  | Threw =>
      setImportError (js "Invalid settings file format")
  end.

(** [file] is [event.target.files?.[0]], given by the text the reader
    will find in it; [None] when no file was chosen. *)
Definition handleImportSettings (file : option jsstring) : M Store unit :=
  match file with
  | None => ret tt
  | Some content => schedule (ReadingFile content)
  end.

Definition handleResetSettings (confirmed : bool) : M Store unit :=
  if confirmed then
    SettingsService_resetSettings ;;
    s <- SettingsService_getSettings ;;
    setSettings s
  else ret tt.

(** The callback that completes a piece of pending work. *)
Definition complete (p : Pending) : M Store unit :=
  match p with
  | ClearSuccessAfter _ => setSuccessMessage []
  | ReadingFile content => readerOnLoad content
  end.

(** The timeout input: [value={settings.localModelTimeout / 1000}] and
    [onChange={(e) => handleSaveSettings({ localModelTimeout:
    parseInt(e.target.value) * 1000 })}]. *)
Definition timeoutValue (s : AppSettings) : number :=
  num_div (localModelTimeout s) (num_of_Z 1000).

Definition timeoutOnChange (value : jsstring) : M Store unit :=
  handleSaveSettings (timeoutPatch (num_mul (parseInt value) (num_of_Z 1000))).

End Component.

(* ===================================================================== *)
(** ** Vocabulary of the properties *)
(* ===================================================================== *)

(** A string made of commas and white space only. *)
Definition blankName (s : jsstring) : Prop :=
  Forall (fun c => c = comma \/ isWhiteSpace c = true) s.

(** A string that neither starts nor ends with white space: [trim]
    leaves it alone. *)
Definition trimmed (s : jsstring) : Prop := trim s = s.

(** A string that does not start with white space. *)
Definition startsClean (s : jsstring) : Prop :=
  match s with
  | [] => True
  | c :: _ => isWhiteSpace c = false
  end.

(** The identifiers of [n] draws in a row, starting at draw [d]. *)
Definition drawnIds (random36 : nat -> jsstring) (d n : nat) : list jsstring :=
  map (fun k => substring 2 15 (random36 k)) (seq d n).

(** One copy of [model] per name, the [k]-th with the identifier of
    draw [d + k]. *)
Fixpoint copies (random36 : nat -> jsstring) (model : LocalModelConfig)
  (d : nat) (names : list jsstring) : list LocalModelConfig :=
  match names with
  | [] => []
  | n :: rest =>
      spreadWith model (substring 2 15 (random36 d)) n
      :: copies random36 model (S d) rest
  end.

(** [copy] has every field of [model] except, possibly, [id] and [name]. *)
Definition sharesConfig (model copy : LocalModelConfig) : Prop :=
  modelType copy = modelType model /\
  endpoint copy = endpoint model /\
  description copy = description model /\
  isEnabled copy = isEnabled model /\
  extra copy = extra model.

(** The three parts of the parser's invariant, for the list [out]
    returned for the submitted config [original]. *)
Definition uniqueIds (original : LocalModelConfig) (out : list LocalModelConfig)
  : Prop :=
  NoDup (map id out) /\ ~ In (id original) (map id out).

Definition cleanNames (out : list LocalModelConfig) : Prop :=
  Forall (fun c => name c <> [] /\ trimmed (name c)) out.

Definition distinctNames (out : list LocalModelConfig) : Prop :=
  NoDup (map name out).

(** What the timeout binder relies on: the snapshot [updateSettings]
    returns carries the timeout of the patch. *)
Definition storesTimeout {Store : Type} (service : SettingsService Store) : Prop :=
  forall (updates : SettingsPatch) (s : Store) (v : number),
    patch_localModelTimeout updates = Some v ->
    localModelTimeout (fst (updateSettings service updates s)) = v.

(** The world [w] with [n] more draws made. *)
Definition afterDraws {Store : Type} (n : nat) (w : World Store) : World Store :=
  {| page := page w; store := store w; calls := calls w;
     draws := draws w + n; pending := pending w |}.

(** The cells [p] with the bulk confirmation closed and nothing staged. *)
Definition unstaged (p : PageState) : PageState :=
  {| settings := settings p; activeTab := activeTab p;
     showLocalModelForm := showLocalModelForm p;
     editingModel := editingModel p; importError := importError p;
     showBulkConfirm := false;
     modelsToCreate := [];
     successMessage := successMessage p |}.

(* ===================================================================== *)
(** ** Concrete inputs *)
(* ===================================================================== *)

Fixpoint jsstring_eqb (a b : jsstring) : bool :=
  match a, b with
  | [], [] => true
  | x :: a', y :: b' => N.eqb x y && jsstring_eqb a' b'
  | _, _ => false
  end.

Definition withLocalModels (models : list LocalModelConfig) (s : AppSettings)
  : AppSettings :=
  {| maxTokens := maxTokens s; temperature := temperature s;
     localModelTimeout := localModelTimeout s; autoSave := autoSave s;
     theme := theme s; openRouterApiKey := openRouterApiKey s;
     localModels := models |}.

Definition orElse {A : Type} (o : option A) (d : A) : A :=
  match o with Some a => a | None => d end.

(** The object spread [{ ...s, ...updates }]. *)
Definition applyPatch (updates : SettingsPatch) (s : AppSettings) : AppSettings :=
  {| maxTokens := orElse (patch_maxTokens updates) (maxTokens s);
     temperature := orElse (patch_temperature updates) (temperature s);
     localModelTimeout :=
       orElse (patch_localModelTimeout updates) (localModelTimeout s);
     autoSave := orElse (patch_autoSave updates) (autoSave s);
     theme := orElse (patch_theme updates) (theme s);
     openRouterApiKey :=
       orElse (patch_openRouterApiKey updates) (openRouterApiKey s);
     localModels := localModels s |}.

(** Modelled from the spec: [SettingsService] ([../services/settings]) is
    not part of the source.  An in-memory service with the operations of
    the "collaborator contract", used to run the handlers on concrete
    inputs: its state is the snapshot itself, an update merges the
    patch, the add operations append, update and remove go by
    identifier, reset restores [defaults].  Of the texts handed to
    [importSettings] it accepts the empty object, which leaves every
    setting at its default, and throws on anything else, leaving its
    state alone.  An [undefined] model is not stored. *)
Definition memoryService (defaults : AppSettings) : SettingsService AppSettings :=
  {| getSettings := fun s => s;
     updateSettings := fun updates s => (applyPatch updates s, applyPatch updates s);
     addLocalModel := fun model s =>
       match model with
       | Some m => withLocalModels (localModels s ++ [m]) s
       | None => s
       end;
     addLocalModels := fun models s => withLocalModels (localModels s ++ models) s;
     updateLocalModel := fun modelId model s =>
       withLocalModels
         (map (fun m => if jsstring_eqb (id m) modelId then model else m)
              (localModels s)) s;
     removeLocalModel := fun modelId s =>
       withLocalModels
         (filter (fun m => negb (jsstring_eqb (id m) modelId)) (localModels s)) s;
     importSettings := fun content s =>
       if jsstring_eqb content (js "{}") then (Returned, defaults) else (Threw, s);
     resetSettings := fun _ => defaults |}.

Definition sampleSettings : AppSettings :=
  {| maxTokens := num_of_Z 2048;
     temperature := num_div (num_of_Z 7) (num_of_Z 10);
     localModelTimeout := num_of_Z 45000;
     autoSave := true;
     theme := Light;
     openRouterApiKey := [];
     localModels := [] |}.

Definition sampleService : SettingsService AppSettings :=
  memoryService sampleSettings.

(** A config as the model form submits it, with the given identifier
    and name field. *)
Definition sampleModel (modelId modelName : jsstring) : LocalModelConfig :=
  {| id := modelId;
     name := modelName;
     modelType := js "ollama";
     endpoint := js "http://localhost:11434";
     description := js "local";
     isEnabled := true;
     extra := [(js "apiKey", [])] |}.

(** Draws of one half, one quarter, three quarters and one eighth, then
    zeros, as [toString(36)] prints them. *)
Definition sampleRandom36 (k : nat) : jsstring :=
  match k with
  | 0 => js "0.i"
  | 1 => js "0.9"
  | 2 => js "0.r"
  | 3 => js "0.4i"
  | _ => js "0"
  end.

(** The page after the user opened the empty model form. *)
Definition formOpen : World AppSettings :=
  run addModelOnClick (mount sampleService sampleSettings).

(** The page after the user submitted the form with a name field of two
    names: the bulk confirmation is pending. *)
Definition bulkPending : World AppSettings :=
  run (handleSaveLocalModel sampleService sampleRandom36
         (sampleModel (js "form-1") (js "A, B")))
      formOpen.

(** The page after the user chose to edit a stored model. *)
Definition formEditing : World AppSettings :=
  run (handleEditLocalModel (sampleModel (js "m1") (js "llama3")))
      (mount sampleService
         (withLocalModels [sampleModel (js "m1") (js "llama3")] sampleSettings)).

(* ===================================================================== *)
(** ** The other inputs and the events of the page *)
(* ===================================================================== *)

(** The object literals [{ maxTokens: v }], [{ temperature: v }],
    [{ autoSave: v }], [{ openRouterApiKey: v }] and [{ theme: v }]. *)
Definition maxTokensPatch (v : number) : SettingsPatch :=
  {| patch_maxTokens := Some v; patch_temperature := None;
     patch_localModelTimeout := None; patch_autoSave := None;
     patch_theme := None; patch_openRouterApiKey := None |}.

Definition temperaturePatch (v : number) : SettingsPatch :=
  {| patch_maxTokens := None; patch_temperature := Some v;
     patch_localModelTimeout := None; patch_autoSave := None;
     patch_theme := None; patch_openRouterApiKey := None |}.

Definition autoSavePatch (v : bool) : SettingsPatch :=
  {| patch_maxTokens := None; patch_temperature := None;
     patch_localModelTimeout := None; patch_autoSave := Some v;
     patch_theme := None; patch_openRouterApiKey := None |}.

Definition apiKeyPatch (v : jsstring) : SettingsPatch :=
  {| patch_maxTokens := None; patch_temperature := None;
     patch_localModelTimeout := None; patch_autoSave := None;
     patch_theme := None; patch_openRouterApiKey := Some v |}.

Definition themePatch (v : Theme) : SettingsPatch :=
  {| patch_maxTokens := None; patch_temperature := None;
     patch_localModelTimeout := None; patch_autoSave := None;
     patch_theme := Some v; patch_openRouterApiKey := None |}.

(** What can happen to a mounted page: the user acts on one of its
    controls, or a piece of pending work completes.  The answer to a
    [confirm] prompt comes with the click that raised it; the number
    [parseFloat] reads in the temperature field comes with the change
    of that field.  Closing the panel and exporting the settings change
    no cell and are left out. *)
Inductive Event : Type :=
| TabClicked (tab : SettingsTab)
| MaxTokensChanged (value : jsstring)
| TemperatureChanged (parsed : number)
| TimeoutChanged (value : jsstring)
| AutoSaveChanged (checked : bool)
| ApiKeyChanged (value : jsstring)
| ThemeChanged (value : Theme)
| AddModelClicked
| EditClicked (model : LocalModelConfig)
| DeleteClicked (modelId : jsstring) (confirmed : bool)
| FormSaved (model : LocalModelConfig)
| FormCanceled
| BulkConfirmed
| BulkCanceled
| SuccessDismissed
| FileChosen (file : option jsstring)
| ResetClicked (confirmed : bool)
| Completed (work : Pending).

Section Events.

Context {Store : Type}.
Variable service : SettingsService Store.
Variable random36 : nat -> jsstring.

(** [onChange={(e) => handleSaveSettings({ maxTokens:
    parseInt(e.target.value) })}] and its neighbours. *)
Definition maxTokensOnChange (value : jsstring) : M Store unit :=
  handleSaveSettings service (maxTokensPatch (parseInt value)).

Definition temperatureOnChange (parsed : number) : M Store unit :=
  handleSaveSettings service (temperaturePatch parsed).

Definition autoSaveOnChange (checked : bool) : M Store unit :=
  handleSaveSettings service (autoSavePatch checked).

Definition openRouterApiKeyOnChange (value : jsstring) : M Store unit :=
  handleSaveSettings service (apiKeyPatch value).

Definition themeOnChange (value : Theme) : M Store unit :=
  handleSaveSettings service (themePatch value).

(** The [onClick] of the close button of the success notice. *)
Definition successMessageOnDismiss : M Store unit := setSuccessMessage [].

(** The handler each event runs. *)
Definition handle (e : Event) : M Store unit :=
  match e with
  | TabClicked tab => setActiveTab tab
  | MaxTokensChanged value => maxTokensOnChange value
  | TemperatureChanged parsed => temperatureOnChange parsed
  | TimeoutChanged value => timeoutOnChange service value
  | AutoSaveChanged checked => autoSaveOnChange checked
  | ApiKeyChanged value => openRouterApiKeyOnChange value
  | ThemeChanged value => themeOnChange value
  | AddModelClicked => addModelOnClick
  | EditClicked model => handleEditLocalModel model
  | DeleteClicked modelId confirmed =>
      handleDeleteLocalModel service modelId confirmed
  | FormSaved model => handleSaveLocalModel service random36 model
  | FormCanceled => localModelFormOnCancel
  | BulkConfirmed => handleConfirmBulkCreation service
  | BulkCanceled => handleCancelBulkCreation
  | SuccessDismissed => successMessageOnDismiss
  | FileChosen file => handleImportSettings file
  | ResetClicked confirmed => handleResetSettings service confirmed
  | Completed work => complete service work
  end.

(** The page after a sequence of events, one handler run after the
    other. *)
Definition runEvents (events : list Event) (w : World Store) : World Store :=
  fold_left (fun w' e => run (handle e) w') events w.

End Events.

(** A name as the parser keeps it: not empty, trimmed, without comma. *)
Definition keptName (n : jsstring) : Prop :=
  n <> [] /\ trimmed n /\ ~ In comma n.

(** The cells with the form closed, editing left and the snapshot [s]. *)
Definition formClosed (s : AppSettings) (p : PageState) : PageState :=
  {| settings := s; activeTab := activeTab p;
     showLocalModelForm := false;
     editingModel := None; importError := importError p;
     showBulkConfirm := showBulkConfirm p;
     modelsToCreate := modelsToCreate p;
     successMessage := successMessage p |}.

(** The cells with the snapshot [s] and nothing else changed. *)
Definition holding (s : AppSettings) (p : PageState) : PageState :=
  {| settings := s; activeTab := activeTab p;
     showLocalModelForm := showLocalModelForm p;
     editingModel := editingModel p; importError := importError p;
     showBulkConfirm := showBulkConfirm p;
     modelsToCreate := modelsToCreate p;
     successMessage := successMessage p |}.

(** The cells with [models] staged and the confirmation shown. *)
Definition stagedWith (models : list LocalModelConfig) (p : PageState)
  : PageState :=
  {| settings := settings p; activeTab := activeTab p;
     showLocalModelForm := showLocalModelForm p;
     editingModel := editingModel p; importError := importError p;
     showBulkConfirm := true;
     modelsToCreate := models;
     successMessage := successMessage p |}.

(** The confirmation, when shown, lists at least two configs; what is
    staged has names as the parser keeps them. *)
Definition stagedOk (p : PageState) : Prop :=
  (showBulkConfirm p = true -> 2 <= length (modelsToCreate p))
  /\ Forall (fun c => keptName (name c)) (modelsToCreate p).

(** A model is being edited only while the form is shown. *)
Definition editingShown (p : PageState) : Prop :=
  editingModel p <> None -> showLocalModelForm p = true.

(** The import error is absent or the fixed text. *)
Definition importErrorFixed (p : PageState) : Prop :=
  importError p = [] \/ importError p = js "Invalid settings file format".

(** The snapshot the page holds is the one the service would return. *)
Definition inSync {Store : Type} (service : SettingsService Store)
  (w : World Store) : Prop :=
  settings (page w) = getSettings service (store w).

(** What keeping in step relies on: [updateSettings] returns the
    snapshot of the state it leaves, and an [importSettings] that throws
    leaves the settings as they were. *)
Definition returnsItsSnapshot {Store : Type} (service : SettingsService Store)
  : Prop :=
  forall (updates : SettingsPatch) (s : Store),
    fst (updateSettings service updates s)
    = getSettings service (snd (updateSettings service updates s)).

Definition failedImportKeepsSettings {Store : Type}
  (service : SettingsService Store) : Prop :=
  forall (content : jsstring) (s : Store),
    fst (importSettings service content s) = Threw ->
    getSettings service (snd (importSettings service content s))
    = getSettings service s.

(** The decimal digits of a natural number, as a template literal or an
    input's [value] attribute prints them. *)
Definition decimal (n : nat) : jsstring := lengthToString n.

(** A code unit that is not a decimal digit. *)
Definition notDigit (c : N) : Prop := (c < 48 \/ 57 < c)%N.

(** A rest of input at which reading decimal digits stops: the end, or
    a code unit that is not a decimal digit. *)
Definition stopsDigits (rest : jsstring) : Prop :=
  match rest with
  | [] => True
  | c :: _ => notDigit c
  end.

(** Whether two numbers are the same value of the model; unlike [===],
    [NaN] is itself and the two zeros differ. *)
Definition number_eqb (x y : number) : bool :=
  match x, y with
  | S754_zero a, S754_zero b => Bool.eqb a b
  | S754_infinity a, S754_infinity b => Bool.eqb a b
  | S754_nan, S754_nan => true
  | S754_finite a m e, S754_finite b m' e' =>
      Bool.eqb a b && Pos.eqb m m' && Z.eqb e e'
  | _, _ => false
  end.

(** For [n] whole seconds: [n * 1000] is computed without rounding, and
    dividing it by [1000] gives [n] back. *)
Definition secondsExact (n : nat) : bool :=
  number_eqb (num_mul (num_of_Z (Z.of_nat n)) (num_of_Z 1000))
             (num_of_Z (Z.of_nat n * 1000))
  && number_eqb (num_div (num_of_Z (Z.of_nat n * 1000)) (num_of_Z 1000))
                (num_of_Z (Z.of_nat n)).

(** The largest value the timeout field offers, its [max] attribute. *)
Definition timeoutMax : nat := 300.

(* ===================================================================== *)
(** ** Strings: split and trim *)
(* ===================================================================== *)

Unset Implicit Arguments.

Example parseNames_ABC :
  parseNames (js "A, B , C") = [js "A"; js "B"; js "C"].
Proof. reflexivity. Qed.

Example parseNames_blank : parseNames (js " , , ") = [].
Proof. reflexivity. Qed.

Example parseNames_trailing_comma : parseNames (js " A ,") = [js "A"].
Proof. reflexivity. Qed.

Example split_empty : split comma [] = [[]] /\ split comma (js ",") = [[]; []].
Proof. split; reflexivity. Qed.

Example substring_of_draw :
  substring 2 15 (js "0") = [] /\ substring 2 15 (js "0.i") = js "i"
  /\ substring 2 15 (js "0.abcdefghijklmnop") = js "abcdefghijklm".
Proof. repeat split; reflexivity. Qed.

Example lengthToString_digits :
  lengthToString 12 = js "12" /\ lengthToString 0 = js "0".
Proof. split; reflexivity. Qed.

Example trim_inner_space : trim (js "  a b  ") = js "a b".
Proof. reflexivity. Qed.

Lemma split_not_nil (sep : N) (s : jsstring) : split sep s <> [].
Proof.
  destruct s as [|c rest]; simpl; [discriminate|].
  destruct (N.eqb c sep); [discriminate|].
  destruct (split sep rest); discriminate.
Qed.

Lemma split_no_separator (sep : N) (s : jsstring) :
  ~ In sep s -> split sep s = [s].
Proof.
  induction s as [|c rest IH]; intros Hnot; simpl; [reflexivity|].
  destruct (N.eqb_spec c sep) as [->|Hne].
  - exfalso. apply Hnot. now left.
  - rewrite IH; [reflexivity|]. intros Hin. apply Hnot. now right.
Qed.

Lemma trimStart_white (s : jsstring) :
  Forall (fun c => isWhiteSpace c = true) s -> trimStart s = [].
Proof.
  induction 1 as [|c rest Hc _ IH]; simpl; [reflexivity|].
  now rewrite Hc.
Qed.

Lemma trim_white (s : jsstring) :
  Forall (fun c => isWhiteSpace c = true) s -> trim s = [].
Proof.
  intros H. unfold trim. now rewrite (trimStart_white _ H).
Qed.

Lemma split_blank (s : jsstring) :
  blankName s ->
  Forall (Forall (fun c => isWhiteSpace c = true)) (split comma s).
Proof.
  induction 1 as [|c rest Hc _ IH]; simpl.
  - repeat constructor.
  - destruct (N.eqb_spec c comma) as [->|Hne].
    + constructor; [constructor | exact IH].
    + destruct Hc as [Hc|Hc]; [contradiction|].
      destruct (split comma rest) as [|piece pieces]; [repeat constructor; exact Hc|].
      inversion IH; subst. constructor; [constructor|]; assumption.
Qed.

Lemma parseNames_blank_nil (s : jsstring) : blankName s -> parseNames s = [].
Proof.
  intros H. unfold parseNames.
  induction (split_blank _ H) as [|piece pieces Hp _ IH]; simpl; [reflexivity|].
  now rewrite (trim_white _ Hp).
Qed.

Lemma trimStart_startsClean (s : jsstring) : startsClean (trimStart s).
Proof.
  induction s as [|c rest IH]; simpl; [exact I|].
  destruct (isWhiteSpace c) eqn:Hc; [exact IH | exact Hc].
Qed.

Lemma trimStart_clean (s : jsstring) : startsClean s -> trimStart s = s.
Proof.
  destruct s as [|c rest]; simpl; [reflexivity|].
  intros ->. reflexivity.
Qed.

Lemma trimStart_snoc_clean (l : jsstring) (c : N) :
  isWhiteSpace c = false -> trimStart (l ++ [c]) = trimStart l ++ [c].
Proof.
  intros Hc. induction l as [|x l IH]; simpl.
  - now rewrite Hc.
  - destruct (isWhiteSpace x); [exact IH | reflexivity].
Qed.

Lemma trimEnd_cons_clean (c : N) (s : jsstring) :
  isWhiteSpace c = false -> trimEnd (c :: s) = c :: trimEnd s.
Proof.
  intros Hc. unfold trimEnd. simpl.
  rewrite (trimStart_snoc_clean _ _ Hc), rev_app_distr. reflexivity.
Qed.

Lemma trimEnd_startsClean (s : jsstring) : startsClean s -> startsClean (trimEnd s).
Proof.
  destruct s as [|c rest]; simpl; intros H; [exact I|].
  rewrite (trimEnd_cons_clean _ _ H). exact H.
Qed.

Lemma trimEnd_idempotent (s : jsstring) : trimEnd (trimEnd s) = trimEnd s.
Proof.
  unfold trimEnd. rewrite rev_involutive.
  now rewrite (trimStart_clean _ (trimStart_startsClean (rev s))).
Qed.

Lemma trim_trimmed (s : jsstring) : trimmed (trim s).
Proof.
  unfold trimmed, trim.
  rewrite (trimStart_clean _ (trimEnd_startsClean _ (trimStart_startsClean s))).
  apply trimEnd_idempotent.
Qed.

(** Every name the parser keeps is non-empty and trimmed. *)
Lemma parseNames_clean (s : jsstring) :
  Forall (fun n => n <> [] /\ trimmed n) (parseNames s).
Proof.
  unfold parseNames.
  induction (split comma s) as [|piece pieces IH]; simpl; [constructor|].
  destruct (trim piece) as [|c rest] eqn:Ht; simpl; [exact IH|].
  constructor; [|exact IH].
  split; [discriminate|]. rewrite <- Ht. apply trim_trimmed.
Qed.

Lemma parseNames_no_comma (s : jsstring) :
  ~ In comma s -> trim s <> [] -> parseNames s = [trim s].
Proof.
  intros Hnot Hne. unfold parseNames. rewrite (split_no_separator _ _ Hnot). simpl.
  destruct (trim s); [contradiction | reflexivity].
Qed.

Lemma parseNames_no_comma_white (s : jsstring) :
  ~ In comma s -> trim s = [] -> parseNames s = [].
Proof.
  intros Hnot He. unfold parseNames. rewrite (split_no_separator _ _ Hnot). simpl.
  now rewrite He.
Qed.

(* ===================================================================== *)
(** ** The bulk model parser *)
(* ===================================================================== *)

Section Parser.

Context {Store : Type}.
Variable random36 : nat -> jsstring.

Lemma mapM_copies (model : LocalModelConfig) (names : list jsstring)
  (w : World Store) :
  mapM (fun name =>
          newId <- newRandomId random36 ;;
          ret (spreadWith model newId name)) names w
  = (copies random36 model (draws w) names, afterDraws (length names) w).
Proof.
  revert w. induction names as [|n rest IH]; intros [pg st cl dr pe].
  - unfold afterDraws. simpl. unfold ret. now rewrite Nat.add_0_r.
  - cbn [mapM]. unfold bind at 1. unfold bind at 1.
    cbn [newRandomId fst snd ret draws].
    unfold bind at 1. rewrite IH. cbn [fst snd ret].
    unfold afterDraws. cbn [page store calls draws pending length].
    now rewrite Nat.add_succ_r.
Qed.

(** The parser, case by case. *)
Lemma parse_unfold (model : LocalModelConfig) (w : World Store) :
  parseCommaSeparatedModelNames random36 model w =
  let entered := run (enter (ParseCommaSeparatedModelNames model)) w in
  if length (parseNames (name model)) =? 1
  then ([model], entered)
  else (copies random36 model (draws w) (parseNames (name model)),
        afterDraws (length (parseNames (name model))) entered).
Proof.
  unfold parseCommaSeparatedModelNames, bind at 1.
  cbn zeta. fold (run (enter (Store:=Store) (ParseCommaSeparatedModelNames model)) w).
  destruct (length (parseNames (name model)) =? 1); [reflexivity|].
  rewrite mapM_copies. reflexivity.
Qed.

Lemma parse_single (model : LocalModelConfig) (w : World Store) :
  length (parseNames (name model)) = 1 ->
  result (parseCommaSeparatedModelNames random36 model) w = [model].
Proof.
  intros H. unfold result. rewrite parse_unfold. cbn zeta.
  now rewrite H.
Qed.

Lemma parse_many (model : LocalModelConfig) (w : World Store) :
  length (parseNames (name model)) <> 1 ->
  result (parseCommaSeparatedModelNames random36 model) w
  = copies random36 model (draws w) (parseNames (name model)).
Proof.
  intros H. unfold result. rewrite parse_unfold. cbn zeta.
  apply Nat.eqb_neq in H. now rewrite H.
Qed.

Lemma copies_names (model : LocalModelConfig) (d : nat) (names : list jsstring) :
  map name (copies random36 model d names) = names.
Proof.
  revert d. induction names as [|n rest IH]; intros d; simpl; [reflexivity|].
  now rewrite IH.
Qed.

Lemma copies_ids (model : LocalModelConfig) (d : nat) (names : list jsstring) :
  map id (copies random36 model d names) = drawnIds random36 d (length names).
Proof.
  revert d. induction names as [|n rest IH]; intros d; simpl; [reflexivity|].
  rewrite IH. reflexivity.
Qed.

Lemma copies_share (model : LocalModelConfig) (d : nat) (names : list jsstring) :
  Forall (sharesConfig model) (copies random36 model d names).
Proof.
  revert d. induction names as [|n rest IH]; intros d; simpl; constructor.
  - repeat split.
  - apply IH.
Qed.

Lemma copies_length (model : LocalModelConfig) (d : nat) (names : list jsstring) :
  length (copies random36 model d names) = length names.
Proof.
  rewrite <- (copies_names model d names) at 2. now rewrite length_map.
Qed.

End Parser.

(** C1 (amended).  For every submitted config: when exactly one
    non-empty trimmed name remains, the parser returns the original
    config itself, identifier and name field untouched; otherwise it
    returns one config per remaining name, in order and with repeated
    names kept, each with a non-empty trimmed name, the other fields of
    the original, and the identifier of one fresh draw of the random
    generator, so that the identifiers are pairwise distinct and differ
    from the original's whenever the drawn ones do. *)
Theorem parser_invariant {Store : Type} (random36 : nat -> jsstring)
  (model : LocalModelConfig) (w : World Store) :
  let names := parseNames (name model) in
  let out := result (parseCommaSeparatedModelNames random36 model) w in
  let drawn := drawnIds random36 (draws w) (length names) in
  (length names = 1 -> out = [model]) /\
  (length names <> 1 ->
   map name out = names /\
   cleanNames out /\
   Forall (sharesConfig model) out /\
   map id out = drawn /\
   (NoDup drawn -> ~ In (id model) drawn -> uniqueIds model out)).
Proof.
  cbn zeta. split; intros Hlen.
  - now apply parse_single.
  - rewrite (parse_many random36 model w Hlen).
    unfold uniqueIds. rewrite copies_names, copies_ids.
    split; [reflexivity|]. split; [|split; [apply copies_share|]].
    + unfold cleanNames.
      apply Forall_map with (f := name) (P := fun n => n <> [] /\ trimmed n).
      rewrite copies_names. apply parseNames_clean.
    + split; [reflexivity|]. intros Hdup Hfresh. now split.
Qed.

(** C4 (amended).  For every submitted config whose name field contains
    no comma and is not made of white space only, the parser returns
    exactly one config, the input itself, identifier unchanged. *)
Theorem parser_no_comma_returns_input {Store : Type}
  (random36 : nat -> jsstring) (model : LocalModelConfig) (w : World Store) :
  ~ In comma (name model) ->
  trim (name model) <> [] ->
  result (parseCommaSeparatedModelNames random36 model) w = [model].
Proof.
  intros Hnot Hne. apply parse_single.
  now rewrite (parseNames_no_comma _ Hnot Hne).
Qed.

(** Without a comma and with white space only, nothing is returned. *)
Lemma parser_no_comma_white {Store : Type}
  (random36 : nat -> jsstring) (model : LocalModelConfig) (w : World Store) :
  ~ In comma (name model) ->
  trim (name model) = [] ->
  result (parseCommaSeparatedModelNames random36 model) w = [].
Proof.
  intros Hnot He. rewrite parse_many; rewrite (parseNames_no_comma_white _ Hnot He).
  - reflexivity.
  - discriminate.
Qed.

(** C5 (amended).  For a submitted config whose name is ["A, B , C"] the
    parser returns exactly three configs named ["A"], ["B"], ["C"], each
    with every other field of the source and the identifier of one
    fresh draw of the random generator, in order; the three identifiers
    are pairwise distinct and none equals the original's whenever that
    holds of the three drawn identifiers. *)
Theorem parser_three_names {Store : Type} (random36 : nat -> jsstring)
  (model : LocalModelConfig) (w : World Store) :
  name model = js "A, B , C" ->
  let id1 := substring 2 15 (random36 (draws w)) in
  let id2 := substring 2 15 (random36 (S (draws w))) in
  let id3 := substring 2 15 (random36 (S (S (draws w)))) in
  let out := result (parseCommaSeparatedModelNames random36 model) w in
  out = [ spreadWith model id1 (js "A");
          spreadWith model id2 (js "B");
          spreadWith model id3 (js "C") ]
  /\ Forall (sharesConfig model) out
  /\ (NoDup [id1; id2; id3] -> ~ In (id model) [id1; id2; id3] ->
      uniqueIds model out).
Proof.
  intros Hname. cbn zeta.
  assert (Hout : result (parseCommaSeparatedModelNames random36 model) w
                 = copies random36 model (draws w) [js "A"; js "B"; js "C"]).
  { rewrite parse_many; rewrite Hname, parseNames_ABC; [reflexivity | discriminate]. }
  rewrite Hout. split; [reflexivity|]. split; [apply copies_share|].
  intros Hdup Hfresh. split; assumption.
Qed.

(** C10.  For every submitted config whose name consists only of commas
    and white space, the parser returns the empty list. *)
Theorem parser_blank_name_returns_nothing {Store : Type}
  (random36 : nat -> jsstring) (model : LocalModelConfig) (w : World Store) :
  blankName (name model) ->
  result (parseCommaSeparatedModelNames random36 model) w = [].
Proof.
  intros Hblank. rewrite parse_many; rewrite (parseNames_blank_nil _ Hblank).
  - reflexivity.
  - discriminate.
Qed.

(* ===================================================================== *)
(** ** Numbers *)
(* ===================================================================== *)

Example parseInt_samples :
  parseInt (js "30") = num_of_Z 30
  /\ parseInt (js " 12px") = num_of_Z 12
  /\ parseInt (js "-0x1f") = num_of_Z (-31)
  /\ parseInt (js "1.5") = num_of_Z 1
  /\ parseInt [] = NaN.
Proof. repeat split; reflexivity. Qed.

Example parseInt_rounds :
  parseInt (js "9007199254740993") = num_of_Z 9007199254740992
  /\ parseInt (js "-0") = S754_zero true
  /\ num_mul (num_of_Z 72057594037929) (num_of_Z 1000)
     = num_of_Z 72057594037928992.
Proof. repeat split; vm_compute; reflexivity. Qed.

Lemma number_eqb_eq (x y : number) : number_eqb x y = true -> x = y.
Proof.
  destruct x as [a|a| |a m e], y as [b|b| |b m' e']; simpl; try discriminate;
    try reflexivity.
  - intros H. apply Bool.eqb_prop in H. now subst.
  - intros H. apply Bool.eqb_prop in H. now subst.
  - intros H. apply andb_prop in H as [H He]. apply andb_prop in H as [Ha Hm].
    apply Bool.eqb_prop in Ha. apply Pos.eqb_eq in Hm. apply Z.eqb_eq in He.
    now subst.
Qed.

(** Every whole number of seconds the timeout field offers is written
    and read back without rounding. *)
Lemma seconds_exact (n : nat) :
  n <= timeoutMax ->
  num_mul (num_of_Z (Z.of_nat n)) (num_of_Z 1000) = num_of_Z (Z.of_nat n * 1000)
  /\ num_div (num_of_Z (Z.of_nat n * 1000)) (num_of_Z 1000) = num_of_Z (Z.of_nat n).
Proof.
  intros Hn.
  assert (Hall : forallb secondsExact (seq 0 (S timeoutMax)) = true)
    by (vm_compute; reflexivity).
  rewrite forallb_forall in Hall.
  assert (Hin : In n (seq 0 (S timeoutMax))) by (apply in_seq; lia).
  specialize (Hall n Hin). unfold secondsExact in Hall.
  apply andb_prop in Hall as [Hmul Hdiv].
  split; now apply number_eqb_eq.
Qed.

Lemma digitValue_notDigit (c : N) :
  notDigit c ->
  match digitValue c with Some d => (d <? 10)%N = false | None => True end.
Proof.
  unfold notDigit, digitValue. intros H.
  destruct ((48 <=? c) && (c <=? 57))%N eqn:H0.
  - apply andb_prop in H0 as [H1 H2]. apply N.leb_le in H1, H2. lia.
  - destruct ((97 <=? c) && (c <=? 122))%N eqn:H3.
    + apply andb_prop in H3 as [H3 _]. apply N.leb_le in H3.
      apply N.ltb_ge. lia.
    + destruct ((65 <=? c) && (c <=? 90))%N eqn:H5; [|exact I].
      apply andb_prop in H5 as [H5 _]. apply N.leb_le in H5.
      apply N.ltb_ge. lia.
Qed.

Lemma digitsPrefix_stops (rest : jsstring) (acc : option N) :
  stopsDigits rest -> digitsPrefix 10 rest acc = acc.
Proof.
  destruct rest as [|c r]; [reflexivity|]. unfold stopsDigits.
  intros H. cbn [digitsPrefix]. pose proof (digitValue_notDigit c H) as Hd.
  destruct (digitValue c) as [d|]; [now rewrite Hd | reflexivity].
Qed.

Ltac read_digit :=
  change (js (String.String ?c ?s)) with (N_of_ascii c :: js s);
  cbn [app digitsPrefix];
  match goal with
  | |- context [digitValue ?x] =>
      let v := eval vm_compute in (digitValue x) in
      change (digitValue x) with v
  end;
  cbv iota beta;
  match goal with
  | |- context [(?k <? 10)%N] => change (k <? 10)%N with true
  end;
  cbv iota.

Lemma digitsPrefix_decimal (d : Decimal.uint) (rest : jsstring) (a : N) :
  stopsDigits rest ->
  digitsPrefix 10 (js (NilEmpty.string_of_uint d) ++ rest) (Some a)
  = Some (N.of_nat (Nat.of_uint_acc d (N.to_nat a))).
Proof.
  intros Hstop. revert a.
  induction d as [|d IH|d IH|d IH|d IH|d IH|d IH|d IH|d IH|d IH|d IH]; intros a;
    [ cbn [NilEmpty.string_of_uint js list_ascii_of_string map app Nat.of_uint_acc];
      rewrite (digitsPrefix_stops rest (Some a) Hstop), N2Nat.id; reflexivity
    | .. ];
    cbn [NilEmpty.string_of_uint Nat.of_uint_acc];
    read_digit; rewrite IH; do 3 f_equal; rewrite Nat.tail_mul_spec; lia.
Qed.

Lemma to_uint_normal (n : nat) : Nat.to_uint n = Decimal.unorm (Nat.to_uint n).
Proof.
  rewrite <- (DecimalNat.Unsigned.of_to n) at 1.
  now rewrite DecimalNat.Unsigned.to_of.
Qed.

Lemma to_uint_not_Nil (n : nat) : Nat.to_uint n <> Decimal.Nil.
Proof.
  rewrite to_uint_normal. unfold Decimal.unorm.
  destruct (Decimal.nzhead (Nat.to_uint n)); discriminate.
Qed.

Lemma to_uint_leading_zero (n : nat) (d : Decimal.uint) :
  Nat.to_uint n = Decimal.D0 d -> n = 0 /\ d = Decimal.Nil.
Proof.
  intros H. pose proof (to_uint_normal n) as Hn. rewrite H in Hn.
  unfold Decimal.unorm in Hn. cbn [Decimal.nzhead] in Hn.
  destruct (Decimal.nzhead d) as [|d'|d'|d'|d'|d'|d'|d'|d'|d'|d'] eqn:Hd;
    try discriminate.
  - inversion Hn; subst. split; [|reflexivity].
    rewrite <- (DecimalNat.Unsigned.of_to n), H. reflexivity.
  - exfalso. exact (DecimalFacts.nzhead_nonzero d d' Hd).
Qed.

Ltac head_unit :=
  change (js (String.String ?c ?s)) with (N_of_ascii c :: js s);
  match goal with
  | |- context [N_of_ascii ?c] =>
      let v := eval vm_compute in (N_of_ascii c) in
      change (N_of_ascii c) with v
  end.

Lemma parseInt_zero_then (c : N) (r : jsstring) :
  c <> 120%N -> c <> 88%N ->
  parseInt (48%N :: c :: r)
  = match digitsPrefix 10 (48%N :: c :: r) None with
    | None => NaN
    | Some n => num_of_Z (Z.of_N n)
    end.
Proof.
  intros H1 H2. unfold parseInt.
  change (trimStart (48%N :: c :: r)) with (48%N :: c :: r).
  cbv beta iota zeta. cbn [fst snd].
  destruct c as [|p]; [reflexivity|].
  do 7 (try (destruct p as [p|p|]; try reflexivity)).
  all: try (now contradiction H1); try (now contradiction H2).
Qed.

Lemma parseInt_digits (d : Decimal.uint) (rest : jsstring) :
  d <> Decimal.Nil ->
  stopsDigits rest ->
  (d = Decimal.D0 Decimal.Nil ->
   match rest with
   | c :: _ => c <> 120%N /\ c <> 88%N
   | [] => True
   end) ->
  parseInt (js (NilEmpty.string_of_uint d) ++ rest)
  = num_of_Z (Z.of_nat (Nat.of_uint d)).
Proof.
  intros Hnil Hstop Hx.
  destruct d as [|d|d|d|d|d|d|d|d|d|d]; [now contradiction Hnil| | ..].
  2-10: (cbn [NilEmpty.string_of_uint]; head_unit; cbn [app];
         unfold parseInt;
         match goal with
         | |- context [trimStart (?k :: ?t)] =>
             change (trimStart (k :: t)) with (k :: t)
         end;
         cbv beta iota zeta; cbn [fst snd digitsPrefix];
         match goal with
         | |- context [digitValue ?x] =>
             let v := eval vm_compute in (digitValue x) in
             change (digitValue x) with v
         end;
         cbv iota beta;
         match goal with
         | |- context [(?k <? 10)%N] => change (k <? 10)%N with true
         end;
         cbv iota;
         rewrite (digitsPrefix_decimal d rest _ Hstop);
         unfold num_of_Z; rewrite nat_N_Z; reflexivity).
  assert (Hdigits :
            match digitsPrefix 10
                    (48%N :: js (NilEmpty.string_of_uint d) ++ rest) None with
            | None => NaN
            | Some n => num_of_Z (Z.of_N n)
            end = num_of_Z (Z.of_nat (Nat.of_uint (Decimal.D0 d)))).
  { change (digitsPrefix 10 (48%N :: js (NilEmpty.string_of_uint d) ++ rest) None)
      with (digitsPrefix 10 (js (NilEmpty.string_of_uint d) ++ rest) (Some 0%N)).
    rewrite (digitsPrefix_decimal d rest _ Hstop).
    unfold num_of_Z. rewrite nat_N_Z. reflexivity. }
  change (js (NilEmpty.string_of_uint (Decimal.D0 d)) ++ rest)
    with (48%N :: js (NilEmpty.string_of_uint d) ++ rest).
  rewrite <- Hdigits.
  destruct d as [|d|d|d|d|d|d|d|d|d|d].
  - cbn [NilEmpty.string_of_uint js list_ascii_of_string map app].
    destruct rest as [|c r]; [reflexivity|].
    destruct (Hx eq_refl) as [H1 H2]. now apply parseInt_zero_then.
  - cbn [NilEmpty.string_of_uint]; head_unit; cbn [app].
    apply parseInt_zero_then; discriminate.
  - cbn [NilEmpty.string_of_uint]; head_unit; cbn [app].
    apply parseInt_zero_then; discriminate.
  - cbn [NilEmpty.string_of_uint]; head_unit; cbn [app].
    apply parseInt_zero_then; discriminate.
  - cbn [NilEmpty.string_of_uint]; head_unit; cbn [app].
    apply parseInt_zero_then; discriminate.
  - cbn [NilEmpty.string_of_uint]; head_unit; cbn [app].
    apply parseInt_zero_then; discriminate.
  - cbn [NilEmpty.string_of_uint]; head_unit; cbn [app].
    apply parseInt_zero_then; discriminate.
  - cbn [NilEmpty.string_of_uint]; head_unit; cbn [app].
    apply parseInt_zero_then; discriminate.
  - cbn [NilEmpty.string_of_uint]; head_unit; cbn [app].
    apply parseInt_zero_then; discriminate.
  - cbn [NilEmpty.string_of_uint]; head_unit; cbn [app].
    apply parseInt_zero_then; discriminate.
  - cbn [NilEmpty.string_of_uint]; head_unit; cbn [app].
    apply parseInt_zero_then; discriminate.
Qed.

Lemma parseInt_decimal (n : nat) (rest : jsstring) :
  match rest with
  | [] => True
  | c :: _ => notDigit c /\ (n = 0 -> c <> 120%N /\ c <> 88%N)
  end ->
  parseInt (decimal n ++ rest) = num_of_Z (Z.of_nat n).
Proof.
  intros H. unfold decimal, lengthToString.
  rewrite parseInt_digits.
  - now rewrite DecimalNat.Unsigned.of_to.
  - apply to_uint_not_Nil.
  - destruct rest as [|c r]; [exact I | exact (proj1 H)].
  - intros Hz. destruct rest as [|c r]; [exact I|].
    apply to_uint_leading_zero in Hz. apply (proj2 H), Hz.
Qed.

(* ===================================================================== *)
(** ** The handlers *)
(* ===================================================================== *)

Section Handlers.

Context {Store : Type}.
Variable service : SettingsService Store.
Variable random36 : nat -> jsstring.

(** Saving in editing mode. *)
Lemma save_editing (model existing : LocalModelConfig) (w : World Store) :
  editingModel (page w) = Some existing ->
  run (handleSaveLocalModel service random36 model) w
  = run (SettingsService_updateLocalModel service (id model) model ;;
         s <- SettingsService_getSettings service ;;
         setSettings s ;;
         setShowLocalModelForm false ;;
         setEditingModel None) w.
Proof.
  intros H. unfold run, handleSaveLocalModel, bind at 1.
  cbn [render fst snd]. now rewrite H.
Qed.

(** Saving in create mode, by the number of names the parser keeps. *)
Lemma save_creating (model : LocalModelConfig) (w : World Store) :
  editingModel (page w) = None ->
  run (handleSaveLocalModel service random36 model) w
  = run (modelsToSave <- parseCommaSeparatedModelNames random36 model ;;
         if 1 <? length modelsToSave then
           setModelsToCreate modelsToSave ;;
           setShowBulkConfirm true
         else
           SettingsService_addLocalModel service (nth_error modelsToSave 0) ;;
           s <- SettingsService_getSettings service ;;
           setSettings s ;;
           setShowLocalModelForm false ;;
           setEditingModel None) w.
Proof.
  intros H. unfold run, handleSaveLocalModel, bind at 1.
  cbn [render fst snd]. now rewrite H.
Qed.

(** No name left: the single-add operation is called on [undefined]. *)
Lemma save_no_name (model : LocalModelConfig) (w : World Store) :
  editingModel (page w) = None ->
  parseNames (name model) = [] ->
  let w' := run (handleSaveLocalModel service random36 model) w in
  calls w' = calls w ++ [ParseCommaSeparatedModelNames model;
                         AddLocalModel None; GetSettings]
  /\ store w' = addLocalModel service None (store w)
  /\ showLocalModelForm (page w') = false
  /\ showBulkConfirm (page w') = showBulkConfirm (page w)
  /\ modelsToCreate (page w') = modelsToCreate (page w).
Proof.
  intros Hedit Hnames. cbn zeta. rewrite (save_creating model w Hedit).
  unfold run, bind. cbv beta. rewrite parse_unfold. cbn zeta. rewrite Hnames.
  destruct w as [pg st cl dr pe]. cbn.
  rewrite <- !app_assoc. repeat split.
Qed.

(** One name left: the submitted config is added as it is. *)
Lemma save_one_name (model : LocalModelConfig) (w : World Store) :
  editingModel (page w) = None ->
  length (parseNames (name model)) = 1 ->
  let w' := run (handleSaveLocalModel service random36 model) w in
  calls w' = calls w ++ [ParseCommaSeparatedModelNames model;
                         AddLocalModel (Some model); GetSettings]
  /\ store w' = addLocalModel service (Some model) (store w)
  /\ settings (page w') = getSettings service (store w')
  /\ showLocalModelForm (page w') = false
  /\ showBulkConfirm (page w') = showBulkConfirm (page w)
  /\ modelsToCreate (page w') = modelsToCreate (page w).
Proof.
  intros Hedit Hlen. cbn zeta. rewrite (save_creating model w Hedit).
  unfold run, bind. cbv beta. rewrite parse_unfold. cbn zeta. rewrite Hlen.
  destruct w as [pg st cl dr pe]. cbn.
  rewrite <- !app_assoc. repeat split.
Qed.

(** Several names left: the copies are staged, nothing is persisted and
    the form stays as it was. *)
Lemma save_many_names (model : LocalModelConfig) (w : World Store) :
  editingModel (page w) = None ->
  1 < length (parseNames (name model)) ->
  let w' := run (handleSaveLocalModel service random36 model) w in
  calls w' = calls w ++ [ParseCommaSeparatedModelNames model]
  /\ store w' = store w
  /\ settings (page w') = settings (page w)
  /\ showLocalModelForm (page w') = showLocalModelForm (page w)
  /\ showBulkConfirm (page w') = true
  /\ modelsToCreate (page w')
     = copies random36 model (draws w) (parseNames (name model)).
Proof.
  intros Hedit Hlen. cbn zeta. rewrite (save_creating model w Hedit).
  unfold run, bind. cbv beta. rewrite parse_unfold. cbn zeta.
  assert (Hne : (length (parseNames (name model)) =? 1) = false)
    by (apply Nat.eqb_neq; lia).
  rewrite Hne. cbn [fst snd]. rewrite copies_length.
  apply Nat.ltb_lt in Hlen. rewrite Hlen.
  destruct w as [pg st cl dr pe]. cbn. repeat split.
Qed.

(** Everything the confirm handler does. *)
Lemma confirm_effect (w : World Store) :
  let staged := modelsToCreate (page w) in
  let w' := run (handleConfirmBulkCreation service) w in
  calls w' = calls w ++ [AddLocalModels staged; GetSettings]
  /\ store w' = addLocalModels service staged (store w)
  /\ settings (page w') = getSettings service (store w')
  /\ showLocalModelForm (page w') = false
  /\ editingModel (page w') = None
  /\ showBulkConfirm (page w') = false
  /\ successMessage (page w') = successText staged
  /\ pending w' = pending w ++ [ClearSuccessAfter 5000]
  /\ modelsToCreate (page w') = staged.
Proof.
  destruct w as [pg st cl dr pe]. cbn.
  rewrite <- !app_assoc. repeat split.
Qed.

(** Everything the cancel handler does. *)
Lemma cancel_page (w : World Store) :
  run handleCancelBulkCreation w
  = {| page := unstaged (page w); store := store w; calls := calls w;
       draws := draws w; pending := pending w |}.
Proof. reflexivity. Qed.

(** The change handler of the timeout input: one update call with the
    patch of the timeout alone, and the returned snapshot is held. *)
Lemma timeout_change_effect (value : jsstring) (w : World Store) :
  let updates := timeoutPatch (num_mul (parseInt value) (num_of_Z 1000)) in
  let w' := run (timeoutOnChange service value) w in
  calls w' = calls w ++ [UpdateSettings updates]
  /\ settings (page w') = fst (updateSettings service updates (store w))
  /\ store w' = snd (updateSettings service updates (store w)).
Proof.
  destruct w as [pg st cl dr pe]. cbn. repeat split.
Qed.

(** Choosing a file starts a read and nothing else; choosing none does
    nothing; the read completes with [reader.onload]. *)
Lemma import_starts_read (content : jsstring) (w : World Store) :
  run (handleImportSettings (Some content)) w
  = {| page := page w; store := store w; calls := calls w;
       draws := draws w; pending := pending w ++ [ReadingFile content] |}
  /\ result (handleImportSettings None) w = tt
  /\ complete service (ReadingFile content) = readerOnLoad service content.
Proof. repeat split. Qed.

Lemma import_no_file (w : World Store) : run (handleImportSettings None) w = w.
Proof. reflexivity. Qed.

End Handlers.

(* ===================================================================== *)
(** ** Properties of the handlers *)
(* ===================================================================== *)

(** C2 (evaluation).  Confirming the staged list of the two configs
    named ["A"] and ["B"] persists exactly those two through the
    batch-add operation, closes the model form and the confirmation, and
    sets the success message to the count and the names joined by
    [", "]; the staged list is still the two configs afterwards. *)
Theorem confirm_keeps_staged_list :
  let staged := modelsToCreate (page bulkPending) in
  let w' := run (handleConfirmBulkCreation sampleService) bulkPending in
  map name staged = [js "A"; js "B"]
  /\ calls w' = calls bulkPending ++ [AddLocalModels staged; GetSettings]
  /\ localModels (store w') = staged
  /\ showLocalModelForm (page w') = false
  /\ showBulkConfirm (page w') = false
  /\ successMessage (page w') = js "Successfully created 2 models: A, B"
  /\ modelsToCreate (page w') = staged
  /\ modelsToCreate (page w') <> [].
Proof.
  cbn zeta. repeat split; try reflexivity. vm_compute. discriminate.
Qed.

(** C3 (evaluation).  On a freshly mounted page with the empty form
    open, submitting the name [" , , "] makes the parser return the
    empty list, and the save handler then calls the single-add
    operation with the missing first element, [undefined], and closes
    the form. *)
Theorem save_blank_name_adds_undefined {Store : Type}
  (service : SettingsService Store) (random36 : nat -> jsstring) (s : Store) :
  let model := sampleModel (js "form-1") (js " , , ") in
  let w := run addModelOnClick (mount service s) in
  let w' := run (handleSaveLocalModel service random36 model) w in
  result (parseCommaSeparatedModelNames random36 model) w = []
  /\ calls w' = [GetSettings; ParseCommaSeparatedModelNames model;
                 AddLocalModel None; GetSettings]
  /\ store w' = addLocalModel service None s
  /\ showLocalModelForm (page w') = false.
Proof.
  cbn zeta.
  pose proof (save_no_name service random36
                (sampleModel (js "form-1") (js " , , "))
                (run addModelOnClick (mount service s))
                eq_refl eq_refl) as H.
  cbn zeta in H. destruct H as (Hc & Hs & Hf & _).
  split; [|split; [exact Hc | split; [exact Hs | exact Hf]]].
  apply parse_many. vm_compute. discriminate.
Qed.

(** C6 (amended).  Canceling a staged bulk creation calls no operation
    of the service, so it persists nothing; it clears the staged list
    and closes the confirmation; every other cell, the visibility of
    the model form among them, is left as it was.  Staging a bulk
    creation from the form does not touch that visibility either, so
    after staging and canceling the form is shown exactly if it was
    shown when it was submitted. *)
Theorem cancel_discards_staged_list {Store : Type}
  (service : SettingsService Store) (random36 : nat -> jsstring)
  (model : LocalModelConfig) (w : World Store) :
  let w' := run handleCancelBulkCreation w in
  (calls w' = calls w
   /\ store w' = store w
   /\ modelsToCreate (page w') = []
   /\ showBulkConfirm (page w') = false
   /\ showLocalModelForm (page w') = showLocalModelForm (page w)
   /\ page w' = unstaged (page w)
   /\ pending w' = pending w)
  /\ (editingModel (page w) = None ->
      1 < length (parseNames (name model)) ->
      let staged := run (handleSaveLocalModel service random36 model) w in
      showBulkConfirm (page staged) = true
      /\ store (run handleCancelBulkCreation staged) = store w
      /\ showLocalModelForm (page (run handleCancelBulkCreation staged))
         = showLocalModelForm (page w)).
Proof.
  cbn zeta. split.
  - rewrite cancel_page. repeat split.
  - intros Hedit Hlen.
    destruct (save_many_names service random36 model w Hedit Hlen)
      as (_ & Hstore & _ & Hform & Hconfirm & _).
    rewrite cancel_page. cbn [page store unstaged showLocalModelForm].
    repeat split; assumption.
Qed.

(** C7.  Whenever a model is being edited, saving calls the update
    operation with the identifier of the submitted config and that
    config, reads the snapshot back, closes the form and leaves editing
    mode; the parser is not entered, no identifier is drawn and nothing
    is staged, whatever the name field holds. *)
Theorem save_while_editing_updates_in_place {Store : Type}
  (service : SettingsService Store) (random36 : nat -> jsstring)
  (model existing : LocalModelConfig) (w : World Store) :
  editingModel (page w) = Some existing ->
  let w' := run (handleSaveLocalModel service random36 model) w in
  calls w' = calls w ++ [UpdateLocalModel (id model) model; GetSettings]
  /\ store w' = updateLocalModel service (id model) model (store w)
  /\ settings (page w') = getSettings service (store w')
  /\ showLocalModelForm (page w') = false
  /\ editingModel (page w') = None
  /\ showBulkConfirm (page w') = showBulkConfirm (page w)
  /\ modelsToCreate (page w') = modelsToCreate (page w)
  /\ draws w' = draws w.
Proof.
  intros Hedit. cbn zeta.
  rewrite (save_editing service random36 model existing w Hedit).
  destruct w as [pg st cl dr pe]. cbn.
  rewrite <- !app_assoc. repeat split.
Qed.

(** C8.  With a service whose update returns a snapshot carrying the
    patched timeout: entering [30] in the timeout field sends the patch
    of the timeout alone with value [30000], and the snapshot then held
    stores [30000]; a stored [45000] is displayed as [45].  In general
    the field writes what [parseInt] reads times [1000] and displays
    the stored number divided by [1000], both in the arithmetic of
    JavaScript numbers; for every whole number of seconds up to the
    maximum of the field the product is exact and the field displays
    what was entered. *)
Theorem timeout_seconds_and_milliseconds {Store : Type}
  (service : SettingsService Store) (w : World Store) :
  storesTimeout service ->
  (let w' := run (timeoutOnChange service (js "30")) w in
   calls w' = calls w ++ [UpdateSettings (timeoutPatch (num_of_Z 30000))]
   /\ localModelTimeout (settings (page w')) = num_of_Z 30000)
  /\ (forall s : AppSettings,
        localModelTimeout s = num_of_Z 45000 -> timeoutValue s = num_of_Z 45)
  /\ (forall value : jsstring,
        let written := num_mul (parseInt value) (num_of_Z 1000) in
        let w' := run (timeoutOnChange service value) w in
        calls w' = calls w ++ [UpdateSettings (timeoutPatch written)]
        /\ localModelTimeout (settings (page w')) = written
        /\ timeoutValue (settings (page w')) = num_div written (num_of_Z 1000))
  /\ (forall n : nat,
        n <= timeoutMax ->
        let w' := run (timeoutOnChange service (decimal n)) w in
        calls w' = calls w
                   ++ [UpdateSettings (timeoutPatch (num_of_Z (Z.of_nat n * 1000)))]
        /\ localModelTimeout (settings (page w')) = num_of_Z (Z.of_nat n * 1000)
        /\ timeoutValue (settings (page w')) = num_of_Z (Z.of_nat n)).
Proof.
  intros Hlaw.
  assert (Hany : forall value : jsstring,
             let written := num_mul (parseInt value) (num_of_Z 1000) in
             let w' := run (timeoutOnChange service value) w in
             calls w' = calls w ++ [UpdateSettings (timeoutPatch written)]
             /\ localModelTimeout (settings (page w')) = written
             /\ timeoutValue (settings (page w')) = num_div written (num_of_Z 1000)).
  { intros value. cbv zeta.
    destruct (timeout_change_effect service value w) as (Hc & Hs & _).
    assert (Hstored : localModelTimeout
                        (settings (page (run (timeoutOnChange service value) w)))
                      = num_mul (parseInt value) (num_of_Z 1000)).
    { rewrite Hs. now apply Hlaw. }
    split; [exact Hc|]. split; [exact Hstored|].
    unfold timeoutValue. now rewrite Hstored. }
  assert (Hwhole : forall n : nat,
             n <= timeoutMax ->
             let w' := run (timeoutOnChange service (decimal n)) w in
             calls w' = calls w
                        ++ [UpdateSettings (timeoutPatch (num_of_Z (Z.of_nat n * 1000)))]
             /\ localModelTimeout (settings (page w')) = num_of_Z (Z.of_nat n * 1000)
             /\ timeoutValue (settings (page w')) = num_of_Z (Z.of_nat n)).
  { intros n Hn. cbv zeta.
    destruct (Hany (decimal n)) as (Hc & Hs & Hv).
    destruct (seconds_exact n Hn) as [Hmul Hdiv].
    assert (Hparse : parseInt (decimal n) = num_of_Z (Z.of_nat n)).
    { rewrite <- (app_nil_r (decimal n)). now apply parseInt_decimal. }
    rewrite Hparse, Hmul in Hc, Hs, Hv. rewrite Hdiv in Hv.
    split; [exact Hc|]. split; [exact Hs | exact Hv]. }
  split; [|split; [|split; [exact Hany | exact Hwhole]]].
  - destruct (Hwhole 30) as (Hc & Hs & _); [unfold timeoutMax; lia|].
    split; [exact Hc | exact Hs].
  - intros s Hs. unfold timeoutValue. rewrite Hs. vm_compute. reflexivity.
Qed.

(** C9.  When the text of the chosen file has been read and the import
    operation of the service throws on it, the snapshot held by the
    page is the one held before and the error message is
    ["Invalid settings file format"]; when the operation returns, the
    snapshot is read back from the service and the error message is
    emptied. *)
Theorem import_outcome {Store : Type} (service : SettingsService Store)
  (content : jsstring) (w : World Store) :
  let w' := run (complete service (ReadingFile content)) w in
  store w' = snd (importSettings service content (store w))
  /\ (fst (importSettings service content (store w)) = Threw ->
      settings (page w') = settings (page w)
      /\ importError (page w') = js "Invalid settings file format"
      /\ calls w' = calls w ++ [ImportSettings content])
  /\ (fst (importSettings service content (store w)) = Returned ->
      settings (page w') = getSettings service (store w')
      /\ importError (page w') = []
      /\ calls w' = calls w ++ [ImportSettings content; GetSettings]).
Proof.
  cbn zeta. unfold run, complete, readerOnLoad, bind. cbv beta.
  destruct w as [pg st cl dr pe]. cbn [SettingsService_importSettings fst snd store].
  destruct (importSettings service content st) as [outcome st'].
  cbn [fst snd]. split; [destruct outcome; reflexivity|].
  split; intros ->; cbn; rewrite <- ?app_assoc; repeat split.
Qed.

(* ===================================================================== *)
(** ** The properties on concrete inputs *)
(* ===================================================================== *)

Ltac distinct_entries :=
  repeat (constructor; [simpl; intuition discriminate|]); constructor.

Ltac blank_entries :=
  unfold blankName;
  repeat (constructor; [first [left; reflexivity | right; reflexivity]|]);
  constructor.

Lemma sampleService_storesTimeout : storesTimeout sampleService.
Proof.
  intros updates s v H. cbn. now rewrite H.
Defined.

(** The name ["A, A"] gives two configs that share the name ["A"]: the
    repeated name is kept. *)
Lemma parser_keeps_repeated_names :
  let model := sampleModel (js "form-1") (js "A, A") in
  let out := result (parseCommaSeparatedModelNames sampleRandom36 model) formOpen in
  map name out = [js "A"; js "A"]
  /\ map id out = [js "i"; js "9"]
  /\ ~ distinctNames out.
Proof.
  cbn zeta. split; [reflexivity|]. split; [reflexivity|].
  unfold distinctNames. intros H. inversion H as [|x l Hin _]; subst.
  apply Hin. left. reflexivity.
Qed.

(** The name [" A "] leaves one name, so the submitted config comes
    back as it is: with the original identifier and the untrimmed name. *)
Lemma parser_single_returns_original :
  let model := sampleModel (js "form-1") (js " A ") in
  let out := result (parseCommaSeparatedModelNames sampleRandom36 model) formOpen in
  out = [model]
  /\ In (id model) (map id out)
  /\ ~ cleanNames out.
Proof.
  cbn zeta. split; [reflexivity|]. split; [left; reflexivity|].
  unfold cleanNames. intros H. inversion H as [|x l [_ Ht] _]; subst.
  vm_compute in Ht. discriminate.
Qed.

Lemma parser_invariant_witness :
  let model := sampleModel (js "form-1") (js "A, B , A") in
  let out := result (parseCommaSeparatedModelNames sampleRandom36 model) formOpen in
  let single := sampleModel (js "form-1") (js " A ,") in
  length (parseNames (name model)) = 3
  /\ map name out = [js "A"; js "B"; js "A"]
  /\ map id out = [js "i"; js "9"; js "r"]
  /\ cleanNames out
  /\ uniqueIds model out
  /\ result (parseCommaSeparatedModelNames sampleRandom36 single) formOpen
     = [single].
Proof.
  cbn zeta.
  destruct (parser_invariant sampleRandom36
              (sampleModel (js "form-1") (js "A, B , A")) formOpen)
    as [_ Hmany].
  destruct (parser_invariant sampleRandom36
              (sampleModel (js "form-1") (js " A ,")) formOpen)
    as [Hone _].
  assert (Hlen : length (parseNames
                           (name (sampleModel (js "form-1") (js "A, B , A")))) <> 1)
    by (vm_compute; discriminate).
  destruct (Hmany Hlen) as (Hn & Hc & _ & Hi & Hu).
  split; [reflexivity|]. split; [exact Hn|]. split; [exact Hi|].
  split; [exact Hc|]. split; [|exact (Hone eq_refl)].
  apply Hu.
  - vm_compute. distinct_entries.
  - vm_compute. intuition discriminate.
Defined.

(** A name field of two spaces holds no comma, and nothing is returned. *)
Lemma parser_no_comma_blank_returns_nothing :
  let model := sampleModel (js "form-1") (js "  ") in
  let out := result (parseCommaSeparatedModelNames sampleRandom36 model) formOpen in
  ~ In comma (name model)
  /\ out = []
  /\ out <> [model].
Proof.
  cbn zeta. split; [|split; [reflexivity | vm_compute; discriminate]].
  vm_compute. intuition discriminate.
Qed.

Lemma parser_no_comma_witness :
  let model := sampleModel (js "form-1") (js " llama3 ") in
  ~ In comma (name model)
  /\ trim (name model) = js "llama3"
  /\ result (parseCommaSeparatedModelNames sampleRandom36 model) formOpen
     = [model].
Proof.
  cbn zeta.
  assert (Hnot : ~ In comma (name (sampleModel (js "form-1") (js " llama3 "))))
    by (vm_compute; intuition discriminate).
  split; [exact Hnot|]. split; [reflexivity|].
  apply (parser_no_comma_returns_input sampleRandom36
           (sampleModel (js "form-1") (js " llama3 ")) formOpen Hnot).
  vm_compute. discriminate.
Defined.

(** With an original identifier of ["i"] and a first draw of one half,
    the first of the three copies has the identifier of the original. *)
Lemma parser_three_names_id_collision :
  let model := sampleModel (js "i") (js "A, B , C") in
  let out := result (parseCommaSeparatedModelNames sampleRandom36 model) formOpen in
  name model = js "A, B , C"
  /\ map name out = [js "A"; js "B"; js "C"]
  /\ map id out = [js "i"; js "9"; js "r"]
  /\ In (id model) (map id out)
  /\ ~ uniqueIds model out.
Proof.
  cbn zeta. split; [reflexivity|]. split; [reflexivity|]. split; [reflexivity|].
  split; [left; reflexivity|].
  intros [_ Hfresh]. apply Hfresh. left. reflexivity.
Qed.

Lemma parser_three_names_witness :
  let model := sampleModel (js "form-1") (js "A, B , C") in
  let out := result (parseCommaSeparatedModelNames sampleRandom36 model) formOpen in
  out = [ spreadWith model (js "i") (js "A");
          spreadWith model (js "9") (js "B");
          spreadWith model (js "r") (js "C") ]
  /\ Forall (sharesConfig model) out
  /\ uniqueIds model out.
Proof.
  cbn zeta.
  destruct (parser_three_names sampleRandom36
              (sampleModel (js "form-1") (js "A, B , C")) formOpen eq_refl)
    as (Hout & Hshare & Hunique).
  split; [exact Hout|]. split; [exact Hshare|].
  apply Hunique.
  - vm_compute. distinct_entries.
  - vm_compute. intuition discriminate.
Defined.

Lemma parser_blank_name_witness :
  let model := sampleModel (js "form-1") (js " , , ") in
  blankName (name model)
  /\ result (parseCommaSeparatedModelNames sampleRandom36 model) formOpen = [].
Proof.
  cbn zeta.
  assert (Hblank : blankName (name (sampleModel (js "form-1") (js " , , "))))
    by blank_entries.
  split; [exact Hblank|].
  exact (parser_blank_name_returns_nothing sampleRandom36
           (sampleModel (js "form-1") (js " , , ")) formOpen Hblank).
Defined.

(** After the form was opened, two names were submitted and the bulk
    creation was canceled, the model form is still shown. *)
Lemma cancel_leaves_form_open :
  let w' := run handleCancelBulkCreation bulkPending in
  showLocalModelForm (page formOpen) = true
  /\ showBulkConfirm (page bulkPending) = true
  /\ map name (modelsToCreate (page bulkPending)) = [js "A"; js "B"]
  /\ modelsToCreate (page w') = []
  /\ calls w' = calls bulkPending
  /\ showLocalModelForm (page w') = true
  /\ showLocalModelForm (page w') <> false.
Proof.
  cbn zeta. repeat split. vm_compute. discriminate.
Qed.

Lemma save_while_editing_witness :
  let model := sampleModel (js "m1") (js "llama3, mistral") in
  let w' := run (handleSaveLocalModel sampleService sampleRandom36 model)
                formEditing in
  editingModel (page formEditing) = Some (sampleModel (js "m1") (js "llama3"))
  /\ calls w' = calls formEditing
                ++ [UpdateLocalModel (js "m1") model; GetSettings]
  /\ localModels (settings (page w')) = [model]
  /\ showLocalModelForm (page w') = false
  /\ showBulkConfirm (page w') = false
  /\ modelsToCreate (page w') = []
  /\ draws w' = 0.
Proof.
  cbn zeta.
  destruct (save_while_editing_updates_in_place sampleService sampleRandom36
              (sampleModel (js "m1") (js "llama3, mistral"))
              (sampleModel (js "m1") (js "llama3")) formEditing eq_refl)
    as (Hc & _ & Hs & Hf & _ & Hb & Hm & Hd).
  split; [reflexivity|]. split; [exact Hc|]. split; [rewrite Hs; reflexivity|].
  split; [exact Hf|]. split; [exact Hb|]. split; [exact Hm | exact Hd].
Defined.

Lemma timeout_witness :
  let w := mount sampleService sampleSettings in
  let w' := run (timeoutOnChange sampleService (js "30")) w in
  localModelTimeout (settings (page w)) = num_of_Z 45000
  /\ timeoutValue (settings (page w)) = num_of_Z 45
  /\ calls w' = [GetSettings; UpdateSettings (timeoutPatch (num_of_Z 30000))]
  /\ localModelTimeout (settings (page w')) = num_of_Z 30000
  /\ localModelTimeout (store w') = num_of_Z 30000
  /\ timeoutValue (settings (page w')) = num_of_Z 30.
Proof.
  cbn zeta.
  destruct (timeout_seconds_and_milliseconds sampleService
              (mount sampleService sampleSettings) sampleService_storesTimeout)
    as ((Hc & Hs) & Hshow & _ & Hwhole).
  assert (Hmax : 30 <= timeoutMax) by (unfold timeoutMax; lia).
  destruct (Hwhole 30 Hmax) as (_ & _ & Hback).
  split; [reflexivity|].
  split; [exact (Hshow (settings (page (mount sampleService sampleSettings))) eq_refl)|].
  split; [exact Hc|]. split; [exact Hs|].
  split; [vm_compute; reflexivity | exact Hback].
Defined.

Lemma import_outcome_witness :
  let w := run (handleImportSettings (Some (js "not json")))
               (run (timeoutOnChange sampleService (js "30"))
                    (mount sampleService sampleSettings)) in
  let failed := run (complete sampleService (ReadingFile (js "not json"))) w in
  let imported := run (complete sampleService (ReadingFile (js "{}"))) failed in
  pending w = [ReadingFile (js "not json")]
  /\ settings (page failed) = settings (page w)
  /\ importError (page failed) = js "Invalid settings file format"
  /\ localModelTimeout (settings (page failed)) = num_of_Z 30000
  /\ settings (page imported) = sampleSettings
  /\ importError (page imported) = [].
Proof.
  cbn zeta.
  set (w := run (handleImportSettings (Some (js "not json")))
                (run (timeoutOnChange sampleService (js "30"))
                     (mount sampleService sampleSettings))).
  destruct (import_outcome sampleService (js "not json") w) as (_ & Hthrew & _).
  destruct (Hthrew eq_refl) as (Hs & He & _).
  destruct (import_outcome sampleService (js "{}")
              (run (complete sampleService (ReadingFile (js "not json"))) w))
    as (_ & _ & Hreturned).
  destruct (Hreturned eq_refl) as (Hs' & He' & _).
  split; [reflexivity|]. split; [exact Hs|]. split; [exact He|].
  split; [reflexivity|]. split; [rewrite Hs'; reflexivity | exact He'].
Defined.

Lemma cancel_witness :
  let model := sampleModel (js "form-1") (js "llama3,mistral") in
  let staged := run (handleSaveLocalModel sampleService sampleRandom36 model)
                    formOpen in
  let w' := run handleCancelBulkCreation staged in
  length (parseNames (name model)) = 2
  /\ showBulkConfirm (page staged) = true
  /\ store w' = sampleSettings
  /\ modelsToCreate (page w') = []
  /\ showLocalModelForm (page w') = showLocalModelForm (page formOpen).
Proof.
  cbn zeta.
  destruct (cancel_discards_staged_list sampleService sampleRandom36
              (sampleModel (js "form-1") (js "llama3,mistral")) formOpen)
    as [_ Hstaged].
  assert (Hlen : 1 < length (parseNames
                               (name (sampleModel (js "form-1")
                                                  (js "llama3,mistral")))))
    by (vm_compute; lia).
  destruct (Hstaged eq_refl Hlen) as (Hconfirm & Hstore & Hform).
  split; [reflexivity|]. split; [exact Hconfirm|]. split; [exact Hstore|].
  split; [reflexivity | exact Hform].
Defined.

(* ===================================================================== *)
(** ** More on names: pieces, kept names, joining and parsing back *)
(* ===================================================================== *)

Lemma split_app_separator (sep : N) (a b : jsstring) :
  split sep (a ++ sep :: b) = split sep a ++ split sep b.
Proof.
  induction a as [|c a IH]; simpl.
  - now rewrite N.eqb_refl.
  - destruct (N.eqb c sep); [now rewrite IH|].
    rewrite IH. destruct (split sep a) as [|p ps] eqn:Hs; [|reflexivity].
    now apply split_not_nil in Hs.
Qed.

Lemma split_pieces_no_separator (sep : N) (s : jsstring) :
  Forall (fun p => ~ In sep p) (split sep s).
Proof.
  induction s as [|c s IH]; simpl.
  - constructor; [intros []|constructor].
  - destruct (N.eqb_spec c sep) as [->|Hne].
    + constructor; [intros []|exact IH].
    + destruct (split sep s) as [|p ps]; [repeat constructor; intros [H|[]]; congruence|].
      inversion IH as [|p' ps' Hp Hps]; subst. constructor; [|exact Hps].
      intros [H|H]; [congruence | exact (Hp H)].
Qed.

Lemma trimStart_incl (s : jsstring) (c : N) : In c (trimStart s) -> In c s.
Proof.
  induction s as [|x s IH]; simpl; [exact (fun H => H)|].
  destruct (isWhiteSpace x); [intros H; right; exact (IH H) | exact (fun H => H)].
Qed.

Lemma trim_incl (s : jsstring) (c : N) : In c (trim s) -> In c s.
Proof.
  unfold trim, trimEnd. intros H.
  apply trimStart_incl. apply in_rev. apply trimStart_incl. apply in_rev in H.
  exact H.
Qed.

(** Every name the parser keeps is non-empty, trimmed and free of commas. *)
Lemma parseNames_kept (s : jsstring) : Forall keptName (parseNames s).
Proof.
  unfold parseNames.
  induction (split_pieces_no_separator comma s) as [|piece pieces Hp _ IH];
    simpl; [constructor|].
  destruct (trim piece) as [|c rest] eqn:Ht; simpl; [exact IH|].
  constructor; [|exact IH]. rewrite <- Ht.
  split; [rewrite Ht; discriminate|]. split; [apply trim_trimmed|].
  intros Hin. exact (Hp (trim_incl _ _ Hin)).
Qed.

Lemma keptName_parses_to_itself (n : jsstring) :
  keptName n -> parseNames n = [n].
Proof.
  intros (Hne & Ht & Hc). unfold trimmed in Ht.
  rewrite (parseNames_no_comma n Hc); rewrite Ht; [reflexivity | exact Hne].
Qed.

Lemma parseNames_app_comma (a b : jsstring) :
  parseNames (a ++ comma :: b) = parseNames a ++ parseNames b.
Proof.
  unfold parseNames. now rewrite split_app_separator, map_app, filter_app.
Qed.

Lemma trim_leading_white (c : N) (s : jsstring) :
  isWhiteSpace c = true -> trim (c :: s) = trim s.
Proof.
  intros Hc. unfold trim. simpl. now rewrite Hc.
Qed.

Lemma parseNames_leading_white (c : N) (s : jsstring) :
  isWhiteSpace c = true -> c <> comma -> parseNames (c :: s) = parseNames s.
Proof.
  intros Hc Hne. unfold parseNames. simpl.
  apply N.eqb_neq in Hne. rewrite Hne.
  destruct (split comma s) as [|p ps] eqn:Hs; [now apply split_not_nil in Hs|].
  simpl. now rewrite (trim_leading_white c p Hc).
Qed.

Lemma parseNames_join (names : list jsstring) :
  Forall keptName names -> parseNames (join (js ", ") names) = names.
Proof.
  induction 1 as [|n rest Hn Hrest IH]; [reflexivity|].
  destruct rest as [|m rest].
  - simpl. now apply keptName_parses_to_itself.
  - change (join (js ", ") (n :: m :: rest))
      with (n ++ comma :: 32%N :: join (js ", ") (m :: rest)).
    rewrite parseNames_app_comma, (keptName_parses_to_itself n Hn).
    rewrite parseNames_leading_white; [|reflexivity|discriminate].
    now rewrite IH.
Qed.

Lemma trimStart_nil_white (s : jsstring) :
  trimStart s = [] -> Forall (fun c => isWhiteSpace c = true) s.
Proof.
  induction s as [|c s IH]; simpl; [constructor|].
  destruct (isWhiteSpace c) eqn:Hc; [|discriminate].
  intros H. constructor; [exact Hc | exact (IH H)].
Qed.

Lemma trim_nil_white (s : jsstring) :
  trim s = [] -> Forall (fun c => isWhiteSpace c = true) s.
Proof.
  unfold trim, trimEnd. intros H.
  apply trimStart_nil_white.
  assert (Hrev : trimStart (rev (trimStart s)) = []).
  { rewrite <- (rev_involutive (trimStart (rev (trimStart s)))). now rewrite H. }
  apply trimStart_nil_white in Hrev.
  pose proof (trimStart_startsClean s) as Hclean.
  destruct (trimStart s) as [|c t]; [reflexivity|].
  simpl in Hclean. rewrite Forall_forall in Hrev.
  rewrite (Hrev c) in Hclean; [discriminate|].
  apply in_rev. rewrite rev_involutive. now left.
Qed.

Lemma white_pieces_blank (s : jsstring) :
  Forall (Forall (fun c => isWhiteSpace c = true)) (split comma s) ->
  blankName s.
Proof.
  unfold blankName. induction s as [|c s IH]; simpl; [constructor|].
  destruct (N.eqb_spec c comma) as [->|Hne]; intros H.
  - inversion H; subst. constructor; [now left | now apply IH].
  - destruct (split comma s) as [|p ps].
    + inversion H as [|x l Hc _]; subst. inversion Hc; subst.
      constructor; [now right|]. apply IH. repeat constructor.
    + inversion H as [|x l Hc Hps]; subst. inversion Hc; subst.
      constructor; [now right|]. apply IH. now constructor.
Qed.

Lemma parseNames_nil_blank (s : jsstring) : parseNames s = [] -> blankName s.
Proof.
  intros H. apply white_pieces_blank. unfold parseNames in H.
  induction (split comma s) as [|p ps IH]; [constructor|].
  simpl in H. destruct (trim p) as [|c t] eqn:Ht; simpl in H; [|discriminate].
  constructor; [now apply trim_nil_white | now apply IH].
Qed.

(* ===================================================================== *)
(** ** More on the bulk model parser *)
(* ===================================================================== *)

(** X1.  The parser returns exactly as many configs as non-empty trimmed
    names remain in the name field, and one of three things: nothing,
    the submitted config alone, or at least two copies carrying the
    remaining names in order. *)
Theorem parser_one_config_per_name {Store : Type} (random36 : nat -> jsstring)
  (model : LocalModelConfig) (w : World Store) :
  let names := parseNames (name model) in
  let out := result (parseCommaSeparatedModelNames random36 model) w in
  length out = length names
  /\ (out = []
      \/ out = [model]
      \/ (2 <= length out /\ map name out = names)).
Proof.
  cbn zeta. destruct (Nat.eq_dec (length (parseNames (name model))) 1) as [H1|H1].
  - rewrite (parse_single random36 model w H1). split; [now rewrite H1|].
    right. now left.
  - rewrite (parse_many random36 model w H1), copies_length, copies_names.
    split; [reflexivity|].
    destruct (parseNames (name model)) as [|n [|n' rest]].
    + now left.
    + now contradiction H1.
    + right. right. split; [simpl; lia | reflexivity].
Qed.

(** X2.  The parser returns the empty list exactly when the name field
    consists of commas and white space only. *)
Theorem parser_nothing_iff_blank {Store : Type} (random36 : nat -> jsstring)
  (model : LocalModelConfig) (w : World Store) :
  result (parseCommaSeparatedModelNames random36 model) w = []
  <-> blankName (name model).
Proof.
  split.
  - intros Hout. apply parseNames_nil_blank.
    destruct (Nat.eq_dec (length (parseNames (name model))) 1) as [H1|H1].
    + rewrite (parse_single random36 model w H1) in Hout. discriminate.
    + rewrite (parse_many random36 model w H1) in Hout.
      apply (f_equal (@length LocalModelConfig)) in Hout.
      rewrite copies_length in Hout.
      destruct (parseNames (name model)); [reflexivity | discriminate].
  - intros Hblank.
    rewrite parse_many; rewrite (parseNames_blank_nil _ Hblank);
      [reflexivity | discriminate].
Qed.

(** X3.  Parsing touches neither the cells of the page, nor the state
    of the service, nor the pending work: it is entered once and makes
    one draw of the random generator per copy it creates, none when the
    submitted config is returned as it is. *)
Theorem parser_footprint {Store : Type} (random36 : nat -> jsstring)
  (model : LocalModelConfig) (w : World Store) :
  let names := parseNames (name model) in
  let w' := run (parseCommaSeparatedModelNames random36 model) w in
  page w' = page w
  /\ store w' = store w
  /\ pending w' = pending w
  /\ calls w' = calls w ++ [ParseCommaSeparatedModelNames model]
  /\ draws w' = draws w + (if length names =? 1 then 0 else length names).
Proof.
  cbn zeta. unfold run. rewrite parse_unfold. cbn zeta.
  destruct (length (parseNames (name model)) =? 1);
    destruct w as [pg st cl dr pe]; cbn; repeat split; lia.
Qed.

(** X4.  Whatever the parser returns parses to itself: submitting one
    of the returned configs again, in any state of the page and with
    any generator, returns that config alone and unchanged. *)
Theorem parser_output_stable {Store : Type} (random36 random36' : nat -> jsstring)
  (model c : LocalModelConfig) (w w' : World Store) :
  In c (result (parseCommaSeparatedModelNames random36 model) w) ->
  result (parseCommaSeparatedModelNames random36' c) w' = [c].
Proof.
  intros Hin. apply parse_single.
  destruct (Nat.eq_dec (length (parseNames (name model))) 1) as [H1|H1].
  - rewrite (parse_single random36 model w H1) in Hin.
    destruct Hin as [<-|[]]. exact H1.
  - rewrite (parse_many random36 model w H1) in Hin.
    assert (Hname : In (name c) (parseNames (name model))).
    { rewrite <- (copies_names random36 model (draws w) (parseNames (name model))).
      now apply in_map. }
    pose proof (parseNames_kept (name model)) as Hkept.
    rewrite Forall_forall in Hkept.
    now rewrite (keptName_parses_to_itself _ (Hkept _ Hname)).
Qed.

(** X5.  The names kept from two name fields put together with a comma
    between them are the names kept from the first followed by the
    names kept from the second. *)
Theorem parseNames_concatenates (a b : jsstring) :
  parseNames (a ++ js "," ++ b) = parseNames a ++ parseNames b.
Proof. exact (parseNames_app_comma a b). Qed.

(** X6.  When the parser creates copies, the list of their names joined
    by [", "], which is what the success notice prints, parses back to
    exactly those names: writing it into the name field stages the same
    names again. *)
Theorem staged_names_parse_back {Store : Type} (random36 : nat -> jsstring)
  (model : LocalModelConfig) (w : World Store) :
  length (parseNames (name model)) <> 1 ->
  let out := result (parseCommaSeparatedModelNames random36 model) w in
  parseNames (join (js ", ") (map name out)) = map name out
  /\ map name out = parseNames (name model).
Proof.
  intros H1. cbn zeta. rewrite (parse_many random36 model w H1), copies_names.
  split; [|reflexivity]. apply parseNames_join, parseNames_kept.
Qed.

(* ===================================================================== *)
(** ** More on saving, confirming and canceling *)
(* ===================================================================== *)

Section Saving.

Context {Store : Type}.
Variable service : SettingsService Store.
Variable random36 : nat -> jsstring.

(** The whole effect of the save handler, by mode and by the number of
    names kept. *)
Lemma save_world (model : LocalModelConfig) (w : World Store) :
  run (handleSaveLocalModel service random36 model) w =
  match editingModel (page w) with
  | Some _ =>
      {| page := formClosed
                   (getSettings service
                      (updateLocalModel service (id model) model (store w)))
                   (page w);
         store := updateLocalModel service (id model) model (store w);
         calls := calls w ++ [UpdateLocalModel (id model) model; GetSettings];
         draws := draws w; pending := pending w |}
  | None =>
      match parseNames (name model) with
      | [] =>
          {| page := formClosed
                       (getSettings service (addLocalModel service None (store w)))
                       (page w);
             store := addLocalModel service None (store w);
             calls := calls w ++ [ParseCommaSeparatedModelNames model;
                                  AddLocalModel None; GetSettings];
             draws := draws w; pending := pending w |}
      | [_] =>
          {| page := formClosed
                       (getSettings service
                          (addLocalModel service (Some model) (store w)))
                       (page w);
             store := addLocalModel service (Some model) (store w);
             calls := calls w ++ [ParseCommaSeparatedModelNames model;
                                  AddLocalModel (Some model); GetSettings];
             draws := draws w; pending := pending w |}
      | _ :: _ :: _ =>
          {| page := stagedWith
                       (copies random36 model (draws w) (parseNames (name model)))
                       (page w);
             store := store w;
             calls := calls w ++ [ParseCommaSeparatedModelNames model];
             draws := draws w + length (parseNames (name model));
             pending := pending w |}
      end
  end.
Proof.
  destruct (editingModel (page w)) as [existing|] eqn:Hedit.
  - rewrite (save_editing service random36 model existing w Hedit).
    destruct w as [pg st cl dr pe]. cbn. now rewrite <- !app_assoc.
  - rewrite (save_creating service random36 model w Hedit).
    unfold run, bind. cbv beta. rewrite parse_unfold. cbn zeta.
    destruct (parseNames (name model)) as [|n [|n' rest]] eqn:Hnames.
    + destruct w as [pg st cl dr pe]. cbn.
      now rewrite <- !app_assoc, Nat.add_0_r.
    + destruct w as [pg st cl dr pe]. cbn. now rewrite <- !app_assoc.
    + cbn [length Nat.eqb fst snd]. rewrite copies_length.
      destruct w as [pg st cl dr pe]. reflexivity.
Qed.

Lemma create_many_world (model : LocalModelConfig) (w : World Store) :
  editingModel (page w) = None ->
  2 <= length (parseNames (name model)) ->
  run (handleSaveLocalModel service random36 model) w
  = {| page := stagedWith
                 (copies random36 model (draws w) (parseNames (name model)))
                 (page w);
       store := store w;
       calls := calls w ++ [ParseCommaSeparatedModelNames model];
       draws := draws w + length (parseNames (name model));
       pending := pending w |}
  /\ map name (copies random36 model (draws w) (parseNames (name model)))
     = parseNames (name model).
Proof.
  intros Hedit Hlen. rewrite save_world, Hedit, copies_names.
  split; [|reflexivity].
  destruct (parseNames (name model)) as [|n [|n' rest]]; simpl in Hlen;
    [lia | lia | reflexivity].
Qed.

End Saving.

(** X7.  In create mode, when exactly one name remains in the name
    field, saving persists the submitted config itself through the
    single-add operation, name field as typed, reads the snapshot back
    and closes the form; no identifier is drawn, nothing is staged and
    no other cell changes. *)
Theorem create_one_adds_submitted {Store : Type}
  (service : SettingsService Store) (random36 : nat -> jsstring)
  (model : LocalModelConfig) (w : World Store) :
  editingModel (page w) = None ->
  length (parseNames (name model)) = 1 ->
  run (handleSaveLocalModel service random36 model) w
  = {| page := formClosed
                 (getSettings service
                    (addLocalModel service (Some model) (store w)))
                 (page w);
       store := addLocalModel service (Some model) (store w);
       calls := calls w ++ [ParseCommaSeparatedModelNames model;
                            AddLocalModel (Some model); GetSettings];
       draws := draws w;
       pending := pending w |}.
Proof.
  intros Hedit Hlen. rewrite save_world, Hedit.
  destruct (parseNames (name model)) as [|n [|n' rest]]; try discriminate.
  reflexivity.
Qed.

(** X8.  In create mode, when two or more names remain, saving persists
    nothing: the only call is the entry into the parser, the state of
    the service is untouched, and the page changes in two cells only,
    the staged list, which receives one copy per name in order, and the
    confirmation, which is shown; one identifier is drawn per copy. *)
Theorem create_many_stages_only {Store : Type}
  (service : SettingsService Store) (random36 : nat -> jsstring)
  (model : LocalModelConfig) (w : World Store) :
  editingModel (page w) = None ->
  2 <= length (parseNames (name model)) ->
  let staged := copies random36 model (draws w) (parseNames (name model)) in
  run (handleSaveLocalModel service random36 model) w
  = {| page := stagedWith staged (page w);
       store := store w;
       calls := calls w ++ [ParseCommaSeparatedModelNames model];
       draws := draws w + length (parseNames (name model));
       pending := pending w |}
  /\ map name staged = parseNames (name model)
  /\ length staged = length (parseNames (name model))
  /\ Forall (sharesConfig model) staged.
Proof.
  intros Hedit Hlen. cbn zeta.
  destruct (create_many_world service random36 model w Hedit Hlen) as [Hw Hnames].
  split; [exact Hw|]. split; [exact Hnames|].
  split; [apply copies_length | apply copies_share].
Qed.

(** X9.  Submitting two or more names in create mode and then
    confirming calls the batch-add operation once, with one config per
    name in order, reads the snapshot back, closes the form and the
    confirmation and sets the success notice to the number of names and
    the names joined by [", "]; when the timer of five seconds
    completes, the notice is emptied, and the service is not called
    again. *)
Theorem stage_confirm_notice {Store : Type}
  (service : SettingsService Store) (random36 : nat -> jsstring)
  (model : LocalModelConfig) (w : World Store) :
  editingModel (page w) = None ->
  2 <= length (parseNames (name model)) ->
  let names := parseNames (name model) in
  let models := copies random36 model (draws w) names in
  let staged := run (handleSaveLocalModel service random36 model) w in
  let done := run (handleConfirmBulkCreation service) staged in
  let cleared := run (complete service (ClearSuccessAfter 5000)) done in
  map name models = names
  /\ calls done = calls w ++ [ParseCommaSeparatedModelNames model;
                             AddLocalModels models; GetSettings]
  /\ store done = addLocalModels service models (store w)
  /\ settings (page done) = getSettings service (store done)
  /\ showLocalModelForm (page done) = false
  /\ showBulkConfirm (page done) = false
  /\ successMessage (page done)
     = js "Successfully created " ++ decimal (length names)
       ++ js " models: " ++ join (js ", ") names
  /\ pending done = pending w ++ [ClearSuccessAfter 5000]
  /\ successMessage (page cleared) = []
  /\ calls cleared = calls done
  /\ store cleared = store done.
Proof.
  intros Hedit Hlen. cbn zeta.
  destruct (create_many_world service random36 model w Hedit Hlen) as [Hw Hnames].
  rewrite Hw. split; [exact Hnames|].
  destruct (confirm_effect service
              {| page := stagedWith
                           (copies random36 model (draws w) (parseNames (name model)))
                           (page w);
                 store := store w;
                 calls := calls w ++ [ParseCommaSeparatedModelNames model];
                 draws := draws w + length (parseNames (name model));
                 pending := pending w |})
    as (Hc & Hs & Hset & Hf & _ & Hb & Hm & Hp & _).
  cbn [page store calls pending stagedWith modelsToCreate] in Hc, Hs, Hm, Hp.
  rewrite <- app_assoc in Hc.
  repeat split; try assumption.
  rewrite Hm. unfold successText, decimal.
  now rewrite Hnames, copies_length.
Qed.

(** X10.  Opening the model form, to add a model or to edit one, and
    canceling it restores the page exactly when the form was closed and
    no model was being edited; in any case canceling the form leaves it
    closed with no model being edited and calls nothing. *)
Theorem form_cancel_restores {Store : Type} (model : LocalModelConfig)
  (w : World Store) :
  (showLocalModelForm (page w) = false ->
   editingModel (page w) = None ->
   run localModelFormOnCancel (run (handleEditLocalModel model) w) = w
   /\ run localModelFormOnCancel (run addModelOnClick w) = w)
  /\ showLocalModelForm (page (run localModelFormOnCancel w)) = false
  /\ editingModel (page (run localModelFormOnCancel w)) = None
  /\ calls (run localModelFormOnCancel w) = calls w
  /\ store (run localModelFormOnCancel w) = store w.
Proof.
  destruct w as [[se ta fo ed ie bc mc sm] st cl dr pe].
  split; [|repeat split].
  cbn. intros -> ->. split; reflexivity.
Qed.

(** X11.  Submitting two or more names in create mode and canceling the
    confirmation calls no operation of the service and leaves its state
    and the pending work untouched; every cell of the page is as before
    the submission, except that the confirmation is closed and the
    staged list is empty.  So the page is restored exactly when no
    confirmation was shown and nothing was staged before; a list left
    staged by an earlier confirmed creation is emptied, and the page is
    then not the one before.  What remains is the entry into the parser
    in the trace and the identifiers drawn for the discarded copies. *)
Theorem stage_cancel_restores_page {Store : Type}
  (service : SettingsService Store) (random36 : nat -> jsstring)
  (model : LocalModelConfig) (w : World Store) :
  editingModel (page w) = None ->
  2 <= length (parseNames (name model)) ->
  let w' := run handleCancelBulkCreation
                (run (handleSaveLocalModel service random36 model) w) in
  w' = {| page := unstaged (page w);
          store := store w;
          calls := calls w ++ [ParseCommaSeparatedModelNames model];
          draws := draws w + length (parseNames (name model));
          pending := pending w |}
  /\ (showBulkConfirm (page w) = false ->
      modelsToCreate (page w) = [] ->
      page w' = page w)
  /\ (modelsToCreate (page w) <> [] -> page w' <> page w).
Proof.
  intros Hedit Hlen. cbn zeta.
  destruct (create_many_world service random36 model w Hedit Hlen) as [-> _].
  rewrite cancel_page. cbn [page store calls draws pending].
  split; [reflexivity|]. split.
  - intros Hshown Hstaged. destruct (page w) as [se ta fo ed ie bc mc sm].
    cbn in Hshown, Hstaged. subst. reflexivity.
  - intros Hstale Hsame. apply Hstale. rewrite <- Hsame. reflexivity.
Qed.

(** X12.  Delete and reset act only on a confirmed prompt: when the
    user declines, the world is exactly as before; when the user
    accepts, the one operation is called, on the given identifier for a
    delete, the snapshot is read back, and no other cell changes. *)
Theorem destructive_actions_need_consent {Store : Type}
  (service : SettingsService Store) (modelId : jsstring) (w : World Store) :
  run (handleDeleteLocalModel service modelId false) w = w
  /\ run (handleResetSettings service false) w = w
  /\ run (handleDeleteLocalModel service modelId true) w
     = {| page := holding
                    (getSettings service
                       (removeLocalModel service modelId (store w)))
                    (page w);
          store := removeLocalModel service modelId (store w);
          calls := calls w ++ [RemoveLocalModel modelId; GetSettings];
          draws := draws w; pending := pending w |}
  /\ run (handleResetSettings service true) w
     = {| page := holding (getSettings service (resetSettings service (store w)))
                    (page w);
          store := resetSettings service (store w);
          calls := calls w ++ [ResetSettings; GetSettings];
          draws := draws w; pending := pending w |}.
Proof.
  destruct w as [pg st cl dr pe]. cbn. rewrite <- !app_assoc. repeat split.
Qed.

(* ===================================================================== *)
(** ** What holds after every sequence of events *)
(* ===================================================================== *)

Section Invariants.

Context {Store : Type}.
Variable service : SettingsService Store.
Variable random36 : nat -> jsstring.

Lemma runEvents_keeps (P : World Store -> Prop) :
  (forall (e : Event) (w : World Store),
      P w -> P (run (handle service random36 e) w)) ->
  forall (events : list Event) (w : World Store),
    P w -> P (runEvents service random36 events w).
Proof.
  intros Hstep events. unfold runEvents.
  induction events as [|e events IH]; intros w Hw; simpl; [exact Hw|].
  apply IH. now apply Hstep.
Qed.

(** The page after the callback of a finished file read. *)
Lemma readerOnLoad_world (content : jsstring) (w : World Store) :
  run (readerOnLoad service content) w =
  match fst (importSettings service content (store w)) with
  | Returned =>
      {| page := {| settings := getSettings service
                                  (snd (importSettings service content (store w)));
                    activeTab := activeTab (page w);
                    showLocalModelForm := showLocalModelForm (page w);
                    editingModel := editingModel (page w);
                    importError := [];
                    showBulkConfirm := showBulkConfirm (page w);
                    modelsToCreate := modelsToCreate (page w);
                    successMessage := successMessage (page w) |};
         store := snd (importSettings service content (store w));
         calls := calls w ++ [ImportSettings content; GetSettings];
         draws := draws w; pending := pending w |}
  | Threw =>
      {| page := {| settings := settings (page w);
                    activeTab := activeTab (page w);
                    showLocalModelForm := showLocalModelForm (page w);
                    editingModel := editingModel (page w);
                    importError := js "Invalid settings file format";
                    showBulkConfirm := showBulkConfirm (page w);
                    modelsToCreate := modelsToCreate (page w);
                    successMessage := successMessage (page w) |};
         store := snd (importSettings service content (store w));
         calls := calls w ++ [ImportSettings content];
         draws := draws w; pending := pending w |}
  end.
Proof.
  unfold run, readerOnLoad, bind. cbv beta.
  destruct w as [pg st cl dr pe]. cbn [SettingsService_importSettings fst snd store].
  destruct (importSettings service content st) as [outcome st'].
  destruct outcome; cbn; now rewrite <- ?app_assoc.
Qed.

(** Every event but a save leaves the staged list and the confirmation
    as they were, or hides the confirmation. *)
Ltac other_events w :=
  destruct w as [[se ta fo ed ie bc mc sm] st cl dr pe]; cbn in *.

Lemma stagedOk_step (e : Event) (w : World Store) :
  stagedOk (page w) -> stagedOk (page (run (handle service random36 e) w)).
Proof.
  unfold stagedOk. intros [Hshown Hkept].
  destruct e as [tab|v|v|v|v|v|v| |m|i c|m| | | | |f|c|work];
    cbn [handle];
    try (other_events w; now split).
  - destruct c; other_events w; now split.
  - rewrite save_world.
    destruct (editingModel (page w)); [now split|].
    destruct (parseNames (name m)) as [|n [|n' rest]] eqn:Hn; try (now split).
    cbn [page stagedWith showBulkConfirm modelsToCreate].
    rewrite copies_length. split; [intros _; simpl; lia|].
    apply Forall_map with (f := name) (P := keptName).
    rewrite copies_names, <- Hn. apply parseNames_kept.
  - destruct f; other_events w; now split.
  - destruct c; other_events w; now split.
  - destruct work as [ms|content]; [other_events w; now split|].
    cbn [complete]. rewrite readerOnLoad_world.
    destruct (fst (importSettings service content (store w))); now split.
Qed.

Lemma editingShown_step (e : Event) (w : World Store) :
  editingShown (page w) -> editingShown (page (run (handle service random36 e) w)).
Proof.
  unfold editingShown. intros H.
  destruct e as [tab|v|v|v|v|v|v| |m|i c|m| | | | |f|c|work];
    cbn [handle];
    try (other_events w; first [exact H | reflexivity | congruence]).
  - destruct c; other_events w; exact H.
  - rewrite save_world.
    destruct (editingModel (page w)) eqn:He; [cbn; congruence|].
    destruct (parseNames (name m)) as [|n [|n' rest]]; cbn; congruence.
  - destruct f; other_events w; exact H.
  - destruct c; other_events w; exact H.
  - destruct work as [ms|content]; [other_events w; exact H|].
    cbn [complete]. rewrite readerOnLoad_world.
    destruct (fst (importSettings service content (store w))); exact H.
Qed.

Lemma importErrorFixed_step (e : Event) (w : World Store) :
  importErrorFixed (page w) ->
  importErrorFixed (page (run (handle service random36 e) w)).
Proof.
  unfold importErrorFixed. intros H.
  destruct e as [tab|v|v|v|v|v|v| |m|i c|m| | | | |f|c|work];
    cbn [handle];
    try (other_events w; exact H).
  - destruct c; other_events w; exact H.
  - rewrite save_world.
    destruct (editingModel (page w)); [exact H|].
    destruct (parseNames (name m)) as [|n [|n' rest]]; exact H.
  - destruct f; other_events w; exact H.
  - destruct c; other_events w; exact H.
  - destruct work as [ms|content]; [other_events w; exact H|].
    cbn [complete]. rewrite readerOnLoad_world.
    destruct (fst (importSettings service content (store w)));
      [left | right]; reflexivity.
Qed.

Lemma inSync_step (e : Event) (w : World Store) :
  returnsItsSnapshot service ->
  failedImportKeepsSettings service ->
  inSync service w -> inSync service (run (handle service random36 e) w).
Proof.
  unfold inSync. intros Hupd Himp H.
  destruct e as [tab|v|v|v|v|v|v| |m|i c|m| | | | |f|c|work];
    cbn [handle];
    try (other_events w; first [exact H | reflexivity | apply Hupd]).
  - destruct c; other_events w; first [exact H | reflexivity].
  - rewrite save_world.
    destruct (editingModel (page w)); [reflexivity|].
    destruct (parseNames (name m)) as [|n [|n' rest]];
      first [reflexivity | exact H].
  - destruct f; other_events w; exact H.
  - destruct c; other_events w; first [exact H | reflexivity].
  - destruct work as [ms|content]; [other_events w; exact H|].
    cbn [complete]. rewrite readerOnLoad_world.
    destruct (fst (importSettings service content (store w))) eqn:Hout;
      cbn [page store settings]; [reflexivity|].
    rewrite H. symmetry. now apply Himp.
Qed.

End Invariants.

(** X13.  After every sequence of events on a freshly mounted page, the
    confirmation, when it is shown, lists at least two staged configs,
    and every staged config has a name that is not empty, is trimmed
    and holds no comma. *)
Theorem confirmation_lists_at_least_two {Store : Type}
  (service : SettingsService Store) (random36 : nat -> jsstring)
  (s : Store) (events : list Event) :
  let w := runEvents service random36 events (mount service s) in
  (showBulkConfirm (page w) = true -> 2 <= length (modelsToCreate (page w)))
  /\ Forall (fun c => keptName (name c)) (modelsToCreate (page w)).
Proof.
  cbn zeta.
  apply (runEvents_keeps service random36 (fun w => stagedOk (page w))).
  - intros e w. apply stagedOk_step.
  - split; [discriminate | constructor].
Qed.

(** X14.  After every sequence of events on a freshly mounted page, a
    model is being edited only while the model form is shown. *)
Theorem editing_only_with_form_shown {Store : Type}
  (service : SettingsService Store) (random36 : nat -> jsstring)
  (s : Store) (events : list Event) :
  let w := runEvents service random36 events (mount service s) in
  editingModel (page w) <> None -> showLocalModelForm (page w) = true.
Proof.
  cbn zeta.
  apply (runEvents_keeps service random36 (fun w => editingShown (page w))).
  - intros e w. apply editingShown_step.
  - intros H. now contradiction H.
Qed.

(** X15.  After every sequence of events on a freshly mounted page, the
    import error is either empty or the text
    ["Invalid settings file format"]: nothing the service throws
    reaches the page. *)
Theorem import_error_is_fixed_text {Store : Type}
  (service : SettingsService Store) (random36 : nat -> jsstring)
  (s : Store) (events : list Event) :
  let w := runEvents service random36 events (mount service s) in
  importError (page w) = []
  \/ importError (page w) = js "Invalid settings file format".
Proof.
  cbn zeta.
  apply (runEvents_keeps service random36 (fun w => importErrorFixed (page w))).
  - intros e w. apply importErrorFixed_step.
  - now left.
Qed.

(** X16.  With a service whose update returns the snapshot of the state
    it leaves and whose failed import leaves the settings as they were,
    the snapshot the page holds is, after every sequence of events on a
    freshly mounted page, the one the service would return. *)
Theorem snapshot_stays_in_sync {Store : Type}
  (service : SettingsService Store) (random36 : nat -> jsstring)
  (s : Store) (events : list Event) :
  returnsItsSnapshot service ->
  failedImportKeepsSettings service ->
  let w := runEvents service random36 events (mount service s) in
  settings (page w) = getSettings service (store w).
Proof.
  intros Hupd Himp. cbn zeta.
  apply (runEvents_keeps service random36 (fun w => inSync service w)).
  - intros e w. now apply inSync_step.
  - reflexivity.
Qed.

(** X17.  Whenever the confirmation is shown after a sequence of events
    on a freshly mounted page, confirming hands the batch-add operation
    at least two configs, all with names that are not empty, trimmed
    and free of commas, and the success notice reports that list. *)
Theorem confirm_creates_at_least_two {Store : Type}
  (service : SettingsService Store) (random36 : nat -> jsstring)
  (s : Store) (events : list Event) :
  let w := runEvents service random36 events (mount service s) in
  let models := modelsToCreate (page w) in
  let w' := run (handleConfirmBulkCreation service) w in
  showBulkConfirm (page w) = true ->
  2 <= length models
  /\ Forall (fun c => keptName (name c)) models
  /\ calls w' = calls w ++ [AddLocalModels models; GetSettings]
  /\ store w' = addLocalModels service models (store w)
  /\ successMessage (page w') = successText models.
Proof.
  cbn zeta. intros Hshown.
  assert (Hok : stagedOk (page (runEvents service random36 events (mount service s)))).
  { apply (runEvents_keeps service random36 (fun w => stagedOk (page w))).
    - intros e w. apply stagedOk_step.
    - split; [discriminate | constructor]. }
  destruct Hok as [Htwo Hkept].
  destruct (confirm_effect service
              (runEvents service random36 events (mount service s)))
    as (Hc & Hs & _ & _ & _ & _ & Hm & _).
  split; [exact (Htwo Hshown)|]. split; [exact Hkept|].
  split; [exact Hc|]. split; [exact Hs | exact Hm].
Qed.

(* ===================================================================== *)
(** ** More on the number fields *)
(* ===================================================================== *)

Lemma parseInt_white (value : jsstring) :
  Forall (fun c => isWhiteSpace c = true) value -> parseInt value = NaN.
Proof.
  intros H. unfold parseInt. now rewrite (trimStart_white value H).
Qed.

(** X18.  Clearing a number field, or leaving only white space in it,
    writes [NaN]: the timeout binder and the token-limit binder each
    send the patch of their one field with the value [NaN]. *)
Theorem cleared_number_field_writes_NaN {Store : Type}
  (service : SettingsService Store) (value : jsstring) (w : World Store) :
  Forall (fun c => isWhiteSpace c = true) value ->
  calls (run (timeoutOnChange service value) w)
  = calls w ++ [UpdateSettings (timeoutPatch NaN)]
  /\ calls (run (maxTokensOnChange service value) w)
     = calls w ++ [UpdateSettings (maxTokensPatch NaN)].
Proof.
  intros H. destruct w as [pg st cl dr pe]. cbn.
  now rewrite (parseInt_white value H).
Qed.

(** X19.  A number field reads the decimal digits at the start of what
    was entered and ignores the rest: for every natural number [n] of
    at most twenty digits followed by nothing or by text that does not
    start with a digit (nor, after a lone [0], with [x] or [X]),
    [parseInt] gives the number nearest to [n]; the token-limit binder
    sends that number and the timeout binder sends its product with
    [1000]; for [n] up to the maximum of the timeout field the product
    is exactly [n * 1000], so a fraction typed after the seconds is
    dropped. *)
Theorem number_fields_read_leading_digits {Store : Type}
  (service : SettingsService Store) (n : nat) (rest : jsstring)
  (w : World Store) :
  (Z.of_nat n < 10 ^ 20)%Z ->
  match rest with
  | [] => True
  | c :: _ => notDigit c /\ (n = 0 -> c <> 120%N /\ c <> 88%N)
  end ->
  parseInt (decimal n ++ rest) = num_of_Z (Z.of_nat n)
  /\ calls (run (maxTokensOnChange service (decimal n ++ rest)) w)
     = calls w ++ [UpdateSettings (maxTokensPatch (num_of_Z (Z.of_nat n)))]
  /\ calls (run (timeoutOnChange service (decimal n ++ rest)) w)
     = calls w ++ [UpdateSettings
                     (timeoutPatch (num_mul (num_of_Z (Z.of_nat n))
                                            (num_of_Z 1000)))]
  /\ (n <= timeoutMax ->
      calls (run (timeoutOnChange service (decimal n ++ rest)) w)
      = calls w ++ [UpdateSettings (timeoutPatch (num_of_Z (Z.of_nat n * 1000)))]).
Proof.
  intros _ H. pose proof (parseInt_decimal n rest H) as Hparse.
  split; [exact Hparse|].
  assert (Htokens :
            calls (run (maxTokensOnChange service (decimal n ++ rest)) w)
            = calls w ++ [UpdateSettings (maxTokensPatch (num_of_Z (Z.of_nat n)))]).
  { rewrite <- Hparse. destruct w as [pg st cl dr pe]. reflexivity. }
  assert (Htimeout :
            calls (run (timeoutOnChange service (decimal n ++ rest)) w)
            = calls w ++ [UpdateSettings
                            (timeoutPatch (num_mul (num_of_Z (Z.of_nat n))
                                                   (num_of_Z 1000)))]).
  { rewrite <- Hparse. destruct w as [pg st cl dr pe]. reflexivity. }
  split; [exact Htokens|]. split; [exact Htimeout|].
  intros Hn. rewrite Htimeout. destruct (seconds_exact n Hn) as [-> _].
  reflexivity.
Qed.

(* ===================================================================== *)
(** ** More on generated identifiers *)
(* ===================================================================== *)

Lemma substring_length (a b : nat) (s : jsstring) :
  length (substring a b s) = Nat.min (Nat.max a b) (length s) - Nat.min (Nat.min a b) (length s).
Proof.
  unfold substring. cbv zeta. rewrite length_firstn, length_skipn. lia.
Qed.

Lemma copies_ids_drawn (random36 : nat -> jsstring) (model : LocalModelConfig)
  (d : nat) (names : list jsstring) :
  Forall (fun c => exists k, d <= k < d + length names
                             /\ id c = substring 2 15 (random36 k))
         (copies random36 model d names).
Proof.
  revert d. induction names as [|n rest IH]; intros d; simpl; constructor.
  - exists d. split; [lia | reflexivity].
  - specialize (IH (S d)). rewrite Forall_forall in IH |- *.
    intros c Hc. destruct (IH c Hc) as (k & Hk & Hid).
    exists k. split; [lia | exact Hid].
Qed.

(** X20.  Every copy the parser creates carries as identifier the text
    of one of the draws it made, from the third character on and at
    most thirteen characters long; the identifier is empty exactly when
    that text has no third character, as for a draw of zero. *)
Theorem generated_ids_are_slices {Store : Type} (random36 : nat -> jsstring)
  (model c : LocalModelConfig) (w : World Store) :
  length (parseNames (name model)) <> 1 ->
  In c (result (parseCommaSeparatedModelNames random36 model) w) ->
  exists k : nat,
    draws w <= k < draws w + length (parseNames (name model))
    /\ id c = firstn 13 (skipn 2 (random36 k))
    /\ length (id c) <= 13
    /\ (id c = [] <-> length (random36 k) <= 2).
Proof.
  intros H1 Hin. rewrite (parse_many random36 model w H1) in Hin.
  pose proof (copies_ids_drawn random36 model (draws w) (parseNames (name model)))
    as Hall.
  rewrite Forall_forall in Hall. destruct (Hall c Hin) as (k & Hk & Hid).
  exists k. split; [exact Hk|].
  assert (Hslice : substring 2 15 (random36 k) = firstn 13 (skipn 2 (random36 k))).
  { unfold substring. cbv zeta.
    destruct (Nat.le_gt_cases 15 (length (random36 k))) as [Hlong|Hshort].
    - replace (Nat.min 2 (length (random36 k))) with 2 by lia.
      replace (Nat.min 15 (length (random36 k))) with 15 by lia.
      reflexivity.
    - destruct (Nat.le_gt_cases 2 (length (random36 k))) as [Htwo|Hone].
      + replace (Nat.min 2 (length (random36 k))) with 2 by lia.
        replace (Nat.min 15 (length (random36 k))) with (length (random36 k)) by lia.
        replace (Nat.min 2 (length (random36 k))) with 2 by lia.
        replace (Nat.max 2 (length (random36 k))) with (length (random36 k)) by lia.
        rewrite !firstn_all2; [reflexivity | rewrite length_skipn; lia
                              | rewrite length_skipn; lia].
      + replace (Nat.min 2 (length (random36 k))) with (length (random36 k)) by lia.
        replace (Nat.min 15 (length (random36 k))) with (length (random36 k)) by lia.
        rewrite Nat.min_id, Nat.max_id, Nat.sub_diag.
        rewrite !skipn_all2 by lia. now rewrite firstn_nil. }
  rewrite Hid. split; [exact Hslice|].
  split; [rewrite substring_length; lia|].
  split; intros He.
  - apply (f_equal (@length N)) in He. rewrite substring_length in He.
    cbn [length] in He. lia.
  - apply length_zero_iff_nil. rewrite substring_length. lia.
Qed.

(* ===================================================================== *)
(** ** The further properties on concrete inputs *)
(* ===================================================================== *)

Lemma sampleService_returnsItsSnapshot : returnsItsSnapshot sampleService.
Proof. intros updates s. reflexivity. Defined.

Lemma sampleService_failedImportKeepsSettings :
  failedImportKeepsSettings sampleService.
Proof.
  intros content s.
  unfold sampleService, memoryService. cbn [importSettings getSettings].
  destruct (jsstring_eqb content (js "{}")); cbn [fst snd];
    [discriminate | reflexivity].
Defined.

Lemma parser_output_stable_witness :
  let model := sampleModel (js "form-1") (js "A, B") in
  let c := spreadWith model (js "i") (js "A") in
  In c (result (parseCommaSeparatedModelNames sampleRandom36 model) formOpen)
  /\ result (parseCommaSeparatedModelNames sampleRandom36 c) bulkPending = [c].
Proof.
  cbn zeta.
  assert (Hin : In (spreadWith (sampleModel (js "form-1") (js "A, B"))
                               (js "i") (js "A"))
                   (result (parseCommaSeparatedModelNames sampleRandom36
                              (sampleModel (js "form-1") (js "A, B")))
                           formOpen))
    by (left; reflexivity).
  split; [exact Hin|].
  exact (parser_output_stable sampleRandom36 sampleRandom36
           (sampleModel (js "form-1") (js "A, B")) _ formOpen bulkPending Hin).
Defined.

Lemma staged_names_parse_back_witness :
  let model := sampleModel (js "form-1") (js " A ,B,, C ") in
  let out := result (parseCommaSeparatedModelNames sampleRandom36 model) formOpen in
  map name out = [js "A"; js "B"; js "C"]
  /\ join (js ", ") (map name out) = js "A, B, C"
  /\ parseNames (join (js ", ") (map name out)) = map name out.
Proof.
  cbn zeta.
  assert (Hlen : length (parseNames
                           (name (sampleModel (js "form-1") (js " A ,B,, C ")))) <> 1)
    by (vm_compute; discriminate).
  destruct (staged_names_parse_back sampleRandom36
              (sampleModel (js "form-1") (js " A ,B,, C ")) formOpen Hlen)
    as [Hback _].
  split; [reflexivity|]. split; [reflexivity | exact Hback].
Defined.

Lemma create_one_witness :
  let model := sampleModel (js "form-1") (js " llama3 ,") in
  let w' := run (handleSaveLocalModel sampleService sampleRandom36 model)
                formOpen in
  parseNames (name model) = [js "llama3"]
  /\ localModels (store w') = [model]
  /\ calls w' = [GetSettings; ParseCommaSeparatedModelNames model;
                 AddLocalModel (Some model); GetSettings]
  /\ showLocalModelForm (page w') = false
  /\ draws w' = 0.
Proof.
  cbn zeta.
  pose proof (create_one_adds_submitted sampleService sampleRandom36
                (sampleModel (js "form-1") (js " llama3 ,")) formOpen
                eq_refl eq_refl) as H.
  split; [reflexivity|]. rewrite H. repeat split.
Defined.

Lemma create_many_witness :
  let model := sampleModel (js "form-1") (js "A, B") in
  let w' := run (handleSaveLocalModel sampleService sampleRandom36 model)
                formOpen in
  store w' = sampleSettings
  /\ calls w' = [GetSettings; ParseCommaSeparatedModelNames model]
  /\ map name (modelsToCreate (page w')) = [js "A"; js "B"]
  /\ showBulkConfirm (page w') = true
  /\ showLocalModelForm (page w') = true
  /\ draws w' = 2.
Proof.
  cbn zeta.
  assert (Hlen : 2 <= length (parseNames
                                (name (sampleModel (js "form-1") (js "A, B")))))
    by (vm_compute; lia).
  destruct (create_many_stages_only sampleService sampleRandom36
              (sampleModel (js "form-1") (js "A, B")) formOpen eq_refl Hlen)
    as (Hw & Hnames & _).
  rewrite Hw. cbn [store calls page draws stagedWith modelsToCreate
                   showBulkConfirm showLocalModelForm].
  split; [reflexivity|]. split; [reflexivity|]. split; [exact Hnames|].
  repeat split.
Defined.

Lemma stage_confirm_notice_witness :
  let model := sampleModel (js "form-1") (js "A, B") in
  let staged := run (handleSaveLocalModel sampleService sampleRandom36 model)
                    formOpen in
  let done := run (handleConfirmBulkCreation sampleService) staged in
  let cleared := run (complete sampleService (ClearSuccessAfter 5000)) done in
  map name (localModels (store done)) = [js "A"; js "B"]
  /\ successMessage (page done) = js "Successfully created 2 models: A, B"
  /\ pending done = [ClearSuccessAfter 5000]
  /\ successMessage (page cleared) = []
  /\ store cleared = store done.
Proof.
  cbn zeta.
  assert (Hlen : 2 <= length (parseNames
                                (name (sampleModel (js "form-1") (js "A, B")))))
    by (vm_compute; lia).
  destruct (stage_confirm_notice sampleService sampleRandom36
              (sampleModel (js "form-1") (js "A, B")) formOpen eq_refl Hlen)
    as (_ & _ & _ & _ & _ & _ & Hmsg & Hpending & Hcleared & _ & Hstore).
  split; [reflexivity|]. split; [exact Hmsg|]. split; [exact Hpending|].
  split; [exact Hcleared | exact Hstore].
Defined.

Lemma form_cancel_witness :
  let w := mount sampleService sampleSettings in
  let model := sampleModel (js "m1") (js "llama3") in
  run localModelFormOnCancel (run (handleEditLocalModel model) w) = w
  /\ run localModelFormOnCancel (run addModelOnClick w) = w.
Proof.
  cbn zeta.
  destruct (form_cancel_restores (sampleModel (js "m1") (js "llama3"))
              (mount sampleService sampleSettings)) as [Hback _].
  exact (Hback eq_refl eq_refl).
Defined.

Lemma stage_cancel_witness :
  let model := sampleModel (js "form-1") (js "A, B") in
  let w' := run handleCancelBulkCreation
                (run (handleSaveLocalModel sampleService sampleRandom36 model)
                     formOpen) in
  let confirmed := runEvents sampleService sampleRandom36
                     [BulkConfirmed; AddModelClicked] bulkPending in
  let again := run handleCancelBulkCreation
                   (run (handleSaveLocalModel sampleService sampleRandom36
                           (sampleModel (js "form-2") (js "C, D")))
                        confirmed) in
  page w' = page formOpen
  /\ store w' = store formOpen
  /\ draws w' = 2
  /\ showBulkConfirm (page confirmed) = false
  /\ map name (modelsToCreate (page confirmed)) = [js "A"; js "B"]
  /\ modelsToCreate (page again) = []
  /\ page again = unstaged (page confirmed)
  /\ page again <> page confirmed.
Proof.
  cbn zeta.
  assert (Hlen : 2 <= length (parseNames
                                (name (sampleModel (js "form-1") (js "A, B")))))
    by (vm_compute; lia).
  assert (Hlen' : 2 <= length (parseNames
                                 (name (sampleModel (js "form-2") (js "C, D")))))
    by (vm_compute; lia).
  destruct (stage_cancel_restores_page sampleService sampleRandom36
              (sampleModel (js "form-1") (js "A, B")) formOpen eq_refl Hlen)
    as (Hw & Hrestored & _).
  destruct (stage_cancel_restores_page sampleService sampleRandom36
              (sampleModel (js "form-2") (js "C, D"))
              (runEvents sampleService sampleRandom36
                 [BulkConfirmed; AddModelClicked] bulkPending)
              eq_refl Hlen')
    as (Hagain & _ & Hstale).
  split; [exact (Hrestored eq_refl eq_refl)|].
  split; [rewrite Hw; reflexivity|]. split; [rewrite Hw; reflexivity|].
  split; [reflexivity|]. split; [reflexivity|].
  split; [rewrite Hagain; reflexivity|]. split; [rewrite Hagain; reflexivity|].
  apply Hstale. vm_compute. discriminate.
Defined.

Lemma editing_only_with_form_shown_witness :
  let model := sampleModel (js "m1") (js "llama3") in
  let w := runEvents sampleService sampleRandom36
             [TabClicked LocalModels; EditClicked model;
              TimeoutChanged (js "30")]
             (mount sampleService sampleSettings) in
  editingModel (page w) = Some model
  /\ showLocalModelForm (page w) = true.
Proof.
  cbn zeta. split; [reflexivity|].
  apply (editing_only_with_form_shown sampleService sampleRandom36 sampleSettings
           [TabClicked LocalModels;
            EditClicked (sampleModel (js "m1") (js "llama3"));
            TimeoutChanged (js "30")]).
  discriminate.
Defined.

Lemma snapshot_stays_in_sync_witness :
  let w := runEvents sampleService sampleRandom36
             [TimeoutChanged (js "30");
              FileChosen (Some (js "not json"));
              Completed (ReadingFile (js "not json"));
              AddModelClicked;
              FormSaved (sampleModel (js "form-1") (js "llama3"));
              DeleteClicked (js "other") true]
             (mount sampleService sampleSettings) in
  settings (page w) = store w
  /\ localModelTimeout (store w) = num_of_Z 30000
  /\ map name (localModels (store w)) = [js "llama3"]
  /\ importError (page w) = js "Invalid settings file format".
Proof.
  cbn zeta. split; [|repeat split].
  exact (snapshot_stays_in_sync sampleService sampleRandom36 sampleSettings
           [TimeoutChanged (js "30");
            FileChosen (Some (js "not json"));
            Completed (ReadingFile (js "not json"));
            AddModelClicked;
            FormSaved (sampleModel (js "form-1") (js "llama3"));
            DeleteClicked (js "other") true]
           sampleService_returnsItsSnapshot
           sampleService_failedImportKeepsSettings).
Defined.

Lemma confirm_creates_at_least_two_witness :
  let events := [TabClicked LocalModels; AddModelClicked;
                 FormSaved (sampleModel (js "form-1") (js "A, ,B"))] in
  let w := runEvents sampleService sampleRandom36 events
             (mount sampleService sampleSettings) in
  let w' := run (handleConfirmBulkCreation sampleService) w in
  showBulkConfirm (page w) = true
  /\ 2 <= length (modelsToCreate (page w))
  /\ map name (localModels (store w')) = [js "A"; js "B"]
  /\ successMessage (page w') = successText (modelsToCreate (page w)).
Proof.
  cbn zeta.
  destruct (confirm_creates_at_least_two sampleService sampleRandom36
              sampleSettings
              [TabClicked LocalModels; AddModelClicked;
               FormSaved (sampleModel (js "form-1") (js "A, ,B"))]
              eq_refl)
    as (Htwo & _ & _ & _ & Hmsg).
  split; [reflexivity|]. split; [exact Htwo|]. split; [reflexivity | exact Hmsg].
Defined.

Lemma cleared_number_field_witness :
  let w := mount sampleService sampleSettings in
  calls (run (timeoutOnChange sampleService (js "  ")) w)
  = [GetSettings; UpdateSettings (timeoutPatch NaN)]
  /\ calls (run (maxTokensOnChange sampleService []) w)
     = [GetSettings; UpdateSettings (maxTokensPatch NaN)]
  /\ localModelTimeout
       (settings (page (run (timeoutOnChange sampleService (js "  ")) w)))
     = NaN.
Proof.
  cbn zeta.
  destruct (cleared_number_field_writes_NaN sampleService (js "  ")
              (mount sampleService sampleSettings)) as [Htimeout _].
  { repeat constructor. }
  destruct (cleared_number_field_writes_NaN sampleService []
              (mount sampleService sampleSettings)) as [_ Htokens].
  { constructor. }
  split; [exact Htimeout|]. split; [exact Htokens | reflexivity].
Defined.

Lemma number_fields_witness :
  let w := mount sampleService sampleSettings in
  parseInt (js "1.5") = num_of_Z 1
  /\ calls (run (timeoutOnChange sampleService (js "1.5")) w)
     = [GetSettings; UpdateSettings (timeoutPatch (num_of_Z 1000))]
  /\ calls (run (maxTokensOnChange sampleService (js "4096")) w)
     = [GetSettings; UpdateSettings (maxTokensPatch (num_of_Z 4096))]
  /\ parseInt (js "9007199254740993") = num_of_Z 9007199254740992
  /\ parseInt (js "0x1f") = num_of_Z 31.
Proof.
  cbn zeta.
  assert (Hone : 1 <= timeoutMax) by (unfold timeoutMax; lia).
  destruct (number_fields_read_leading_digits sampleService 1 (js ".5")
              (mount sampleService sampleSettings))
    as (Hparse & _ & _ & Htimeout).
  { reflexivity. }
  { split; [left; reflexivity | discriminate]. }
  destruct (number_fields_read_leading_digits sampleService 4096 []
              (mount sampleService sampleSettings) eq_refl I)
    as (_ & Htokens & _).
  split; [exact Hparse|]. split; [exact (Htimeout Hone)|].
  split; [exact Htokens|]. split; vm_compute; reflexivity.
Defined.

Lemma generated_ids_witness :
  let model := sampleModel (js "form-1") (js "A, B") in
  let c := spreadWith model (js "9") (js "B") in
  In c (result (parseCommaSeparatedModelNames sampleRandom36 model) formOpen)
  /\ exists k : nat,
       draws formOpen <= k < draws formOpen + length (parseNames (name model))
       /\ id c = firstn 13 (skipn 2 (sampleRandom36 k))
       /\ length (id c) <= 13
       /\ (id c = [] <-> length (sampleRandom36 k) <= 2).
Proof.
  cbn zeta.
  assert (Hin : In (spreadWith (sampleModel (js "form-1") (js "A, B"))
                               (js "9") (js "B"))
                   (result (parseCommaSeparatedModelNames sampleRandom36
                              (sampleModel (js "form-1") (js "A, B")))
                           formOpen))
    by (right; left; reflexivity).
  split; [exact Hin|].
  apply (generated_ids_are_slices sampleRandom36
           (sampleModel (js "form-1") (js "A, B")) _ formOpen); [|exact Hin].
  vm_compute. discriminate.
Defined.
